(** * nimesh.io.gifti: the GIfTI codec of nimesh

    A shallow embedding of [src/nimesh/io/gifti.py] and the properties of
    its specification.

    Layout of the development:
    - [Numpy]: the array operations the module calls (astype, true
      division, multiplication, round), on IEEE 754 numbers given by the
      standard library's [spec_float];
    - [Python]: [str] and [int] on integers, exceptions and warnings;
    - the entity model of [nimesh] (Mesh, Segmentation, Label, ...);
    - the objects of nibabel's GIfTI interface the module builds and reads;
    - the functions of [gifti.py], in source order of their dependencies;
    - the properties. *)

From Stdlib Require Import ZArith String Ascii List Lia.
From Stdlib Require Import DecimalString DecimalZ DecimalPos SpecFloat.
From stdpp Require Import base option list gmap strings.

Open Scope Z_scope.

(* ===================================================================== *)
(** * Numbers and arrays *)
(* ===================================================================== *)

Module Numpy.

(** A binary64 or binary32 number.  [spec_float] is the standard library's
    specification of IEEE 754 values (sign, mantissa, exponent); its
    operations take the precision and the exponent bound as arguments. *)
Abbreviation float := spec_float.

Definition prec64 : Z := 53.
Definition emax64 : Z := 1024.
Definition prec32 : Z := 24.
Definition emax32 : Z := 128.

(** Conversion of an integer to binary64 (round to nearest even), as numpy
    performs it before a true division of an integer array. *)
Definition float64_of_int (z : Z) : float :=
  binary_normalize prec64 emax64 z 0 false.

Definition float32_of_int (z : Z) : float :=
  binary_normalize prec32 emax32 z 0 false.

(** [x / y] and [x * y] on binary64. *)
Definition true_divide (x y : float) : float := SFdiv prec64 emax64 x y.
Definition multiply (x y : float) : float := SFmul prec64 emax64 x y.

(** Narrowing of a binary64 number to binary32: the value is rounded to
    24 bits of mantissa, overflowing to an infinity. *)
Definition float32_of_float64 (x : float) : float :=
  match x with
  | S754_finite s m e => binary_round prec32 emax32 s m e
  | _ => x
  end.

(** Two's complement wrap-around of an integer to [bits] bits. *)
Definition wrap (bits : Z) (z : Z) : Z :=
  (z + 2 ^ (bits - 1)) mod 2 ^ bits - 2 ^ (bits - 1).

Definition int32_of_int (z : Z) : Z := wrap 32 z.

Definition in_int32 (z : Z) : Prop := - 2 ^ 31 <= z < 2 ^ 31.
(** The integer nearest to a finite number, ties to the even one: the
    value of [np.round(x)] (numpy rounds half to even). *)
Definition rint (s : bool) (m : positive) (e : Z) : Z :=
  let n :=
    match e with
    | Zneg p =>
        let d := Z.pow_pos 2 p in
        let q := Z.pos m / d in
        let r := Z.pos m mod d in
        match 2 * r ?= d with
        | Lt => q
        | Gt => q + 1
        | Eq => if Z.even q then q else q + 1
        end
    | _ => Z.pos m * 2 ^ e
    end in
  if s then - n else n.

(** The integer part of a finite number (rounding toward zero): the C
    conversion of a floating-point number to an integer. *)
Definition trunc (s : bool) (m : positive) (e : Z) : Z :=
  let n :=
    match e with
    | Zneg p => Z.pos m / Z.pow_pos 2 p
    | _ => Z.pos m * 2 ^ e
    end in
  if s then - n else n.

(** Conversion of a number to a [bits]-bit integer by [conv].  A NaN, an
    infinity or a value out of range gives the most negative integer
    ("integer indefinite"), as the conversion instructions of x86-64
    do. *)
Definition int_of_float (conv : bool -> positive -> Z -> Z)
    (bits : Z) (x : float) : Z :=
  match x with
  | S754_zero _ => 0
  | S754_finite s m e =>
      let n := conv s m e in
      if (- 2 ^ (bits - 1) <=? n) && (n <? 2 ^ (bits - 1))
      then n else - 2 ^ (bits - 1)
  | _ => - 2 ^ (bits - 1)
  end.

(** [np.round(x).astype(int)] on one element. *)
Definition round_astype_int (x : float) : Z := int_of_float rint 64 x.

(** [x.astype('i4')] on one binary64 or binary32 element. *)
Definition int32_of_float (x : float) : Z := int_of_float trunc 32 x.

(** An array: its shape and its elements in row-major order.  A float
    array is binary32 when [single] is set, binary64 otherwise; an
    integer array is 32-bit when [narrow] is set, 64-bit otherwise. *)
Inductive ndarray :=
| float_array (single : bool) (shape : list nat) (items : list float)
| int_array (narrow : bool) (shape : list nat) (items : list Z).

(** The array [a.astype('f4')] returns. *)
Definition astype_f4 (a : ndarray) : ndarray :=
  match a with
  | float_array true _ _ => a
  | float_array false s xs => float_array true s (map float32_of_float64 xs)
  | int_array _ s zs => float_array true s (map float32_of_int zs)
  end.

(** The array [a.astype('i4')] returns. *)
Definition astype_i4 (a : ndarray) : ndarray :=
  match a with
  | int_array true _ _ => a
  | int_array false s zs => int_array true s (map int32_of_int zs)
  | float_array _ s xs => int_array true s (map int32_of_float xs)
  end.

(** The element types the module casts to. *)
Inductive dtype := f4 | i4.

(** Whether narrowing a number to binary32 overflows: the number is
    finite and the result is an infinity. *)
Definition overflows_float32 (x : float) : bool :=
  match x with
  | S754_finite _ _ _ =>
      match float32_of_float64 x with
      | S754_infinity _ => true
      | _ => false
      end
  | _ => false
  end.

(** Whether a number has no 32-bit integer value: a NaN, an infinity, or
    an integer part out of range. *)
Definition no_int32 (x : float) : bool :=
  match x with
  | S754_zero _ => false
  | S754_finite s m e =>
      let n := trunc s m e in
      negb ((- 2 ^ 31 <=? n) && (n <? 2 ^ 31))
  | _ => true
  end.

(** Whether [a.astype('f4')] meets an overflow, for which numpy issues
    the warning "overflow encountered in cast". *)
Definition overflow_in_cast (a : ndarray) : bool :=
  match a with
  | float_array false _ xs => existsb overflows_float32 xs
  | _ => false
  end.

(** Whether [a.astype('i4')] meets a value it cannot convert, for which
    numpy issues the warning "invalid value encountered in cast". *)
Definition invalid_in_cast (a : ndarray) : bool :=
  match a with
  | float_array _ _ xs => existsb no_int32 xs
  | int_array _ _ _ => false
  end.

End Numpy.
Import Numpy.

(* ===================================================================== *)
(** * Python values, exceptions and warnings *)
(* ===================================================================== *)

Module Python.

(** [str(z)] for an integer: its decimal numeral, with a leading minus sign
    when negative. *)
Definition str (z : Z) : string := NilZero.string_of_int (Z.to_int z).

(** The exceptions the module and the calls it makes can raise. *)
Inductive exn :=
| ValueError (msg : string)
| KeyError (key : string)
| TypeError (msg : string)
| FileNotFoundError (filename : string).

(** The outcome of a call: a value, or a raised exception. *)
Inductive result (A : Type) :=
| Return (a : A)
| Raise (e : exn).
Arguments Return {A} a.
Arguments Raise {A} e.

Definition result_bind {A B} (r : result A) (k : A -> result B) : result B :=
  match r with
  | Return a => k a
  | Raise e => Raise e
  end.

(** The characters [str.strip] removes, among the ASCII ones: tab, line
    feed, vertical tab, form feed, carriage return, the four separators
    28 to 31 and the space. *)
Definition isspace (c : ascii) : bool :=
  let n := nat_of_ascii c in
  ((9 <=? n) && (n <=? 13) || (28 <=? n) && (n <=? 32))%nat.

Definition isdigit (c : ascii) : bool :=
  let n := nat_of_ascii c in ((48 <=? n) && (n <=? 57))%nat.

Fixpoint lstrip (l : list ascii) : list ascii :=
  match l with
  | c :: l' => if isspace c then lstrip l' else l
  | [] => []
  end.

Definition strip (l : list ascii) : list ascii :=
  rev (lstrip (rev (lstrip l))).

(** The digits of a numeral in which single underscores may separate
    digits; [None] for anything else, the empty text included. *)
Fixpoint ungroup (l : list ascii) : option (list ascii) :=
  match l with
  | [] => None
  | c :: l' =>
      if isdigit c then
        match l' with
        | [] => Some [c]
        | c' :: l'' =>
            if Ascii.eqb c' "_" then cons c <$> ungroup l''
            else cons c <$> ungroup l'
        end
      else None
  end.

(** The integer a text denotes for [int]: white space around it is
    dropped, then come an optional sign and decimal digits, with single
    underscores allowed between digits. *)
Definition int_literal (s : string) : option Z :=
  let l := strip (list_ascii_of_string s) in
  let '(negative, body) :=
    match l with
    | c :: l' =>
        if Ascii.eqb c "-" then (true, l')
        else if Ascii.eqb c "+" then (false, l')
        else (false, l)
    | [] => (false, l)
    end in
  digits ← ungroup body;
  d ← NilEmpty.uint_of_string (string_of_list_ascii digits);
  Some (if negative then - Z.of_uint d else Z.of_uint d).

(** [int(s)] for a string of ASCII characters: the integer it denotes, or
    [ValueError]. *)
Definition int (s : string) : result Z :=
  match int_literal s with
  | Some z => Return z
  | None =>
      Raise (ValueError
               ("invalid literal for int() with base 10: '" +:+ s +:+ "'"))
  end.

(** The category of a warning; [warnings.warn] without a category issues a
    [UserWarning]. *)
Inductive category := UserWarning | RuntimeWarning.

Record warning := Warning { w_category : category; w_message : string }.

(** [template.format(arg)] for the one-hole templates of the module, given
    as the text before and after the hole. *)
Definition format (before after arg : string) : string :=
  before +:+ arg +:+ after.

(** A Python [dict] with insertion order: an association list without
    duplicate keys.  [dict_set] is [d[k] = v]; [dict_get] is [d.get(k)]. *)
Fixpoint dict_set `{EqDecision K} {V} (k : K) (v : V) (d : list (K * V))
    : list (K * V) :=
  match d with
  | [] => [(k, v)]
  | (k', v') :: d' =>
      if decide (k' = k) then (k, v) :: d' else (k', v') :: dict_set k v d'
  end.

Fixpoint dict_get `{EqDecision K} {V} (k : K) (d : list (K * V))
    : option V :=
  match d with
  | [] => None
  | (k', v') :: d' => if decide (k' = k) then Some v' else dict_get k d'
  end.

(** [d[k]]: the value of [k], or [KeyError] with the text of the key. *)
Definition getitem `{EqDecision K} {V} (repr : K -> string)
    (d : list (K * V)) (k : K) : result V :=
  match dict_get k d with
  | Some v => Return v
  | None => Raise (KeyError (repr k))
  end.

End Python.
Import Python.

(* ===================================================================== *)
(** * The entity model of nimesh *)
(* ===================================================================== *)

(** Modelled from the spec: the enumeration [CoordinateSystem] is
    declared in the core module of [nimesh], outside [gifti.py].  Its
    members are the seven reference frames the registry tables of
    [gifti.py] list.  The integer [value] of each member is declared there
    too: the functions below take it as a parameter. *)
Inductive CoordinateSystem :=
| UNKNOWN | SCANNER | RAS | LPS | VOXEL | MNI | TALAIRACH.

#[global] Instance CoordinateSystem_eq_dec : EqDecision CoordinateSystem.
Proof. solve_decision. Defined.

Definition CoordinateSystem_members : list CoordinateSystem :=
  [UNKNOWN; SCANNER; RAS; LPS; VOXEL; MNI; TALAIRACH].

(** A 4x4 affine matrix, by rows. *)
Definition matrix := list (list float).

Module AffineTransform.
(** Modelled from the spec: the class [AffineTransform] of [nimesh], a
    target coordinate system and an affine matrix. *)
Record t := mk { transform_coord_sys : CoordinateSystem; affine : matrix }.
End AffineTransform.

Module Color.
(** Modelled from the spec: an RGB(A) colour, three or four integer
    channels. *)
Inductive t :=
| RGB (red green blue : Z)
| RGBA (red green blue alpha : Z).

(** The channels of a colour, as the sequence [label.color]. *)
Definition channels (c : t) : list Z :=
  match c with
  | RGB r g b => [r; g; b]
  | RGBA r g b a => [r; g; b; a]
  end.
End Color.

Module Label.
(** Modelled from the spec: the class [Label] of [nimesh], a name and an
    RGB(A) colour of integer channels in 0-255. *)
Record t := mk { name : string; color : Color.t }.
End Label.

Module Segmentation.
(** Modelled from the spec: the class [Segmentation] of [nimesh], a name,
    one integer key per vertex and a mapping from key to label.
    [Segmentation(name, keys)] has no label yet; [add_label] sets the
    label of a key. *)
Record t := mk {
  name : string;
  keys : ndarray;
  labels : list (Z * Label.t)
}.
Definition init (name : string) (keys : ndarray) : t := mk name keys [].
Definition add_label (key : Z) (label : Label.t) (s : t) : t :=
  mk (name s) (keys s) (dict_set key label (labels s)).
End Segmentation.

Module VertexData.
(** Modelled from the spec: the class [VertexData] of [nimesh], a name and
    one value per vertex. *)
Record t := mk { name : string; data : ndarray }.
End VertexData.

Module Mesh.
(** Modelled from the spec: the class [Mesh] of [nimesh].
    [Mesh(vertices, triangles, coordinate_system, normals)] has nothing
    attached; [add_transform], [add_segmentation] and [add_vertex_data]
    attach one more item after those already there. *)
Record t := mk {
  vertices : ndarray;
  triangles : ndarray;
  coordinate_system : CoordinateSystem;
  normals : option ndarray;
  transforms : list AffineTransform.t;
  segmentations : list Segmentation.t;
  vertex_data : list VertexData.t
}.
Definition init (vertices triangles : ndarray)
    (coordinate_system : CoordinateSystem) (normals : option ndarray) : t :=
  mk vertices triangles coordinate_system normals [] [] [].
Definition add_transform (x : AffineTransform.t) (m : t) : t :=
  mk (vertices m) (triangles m) (coordinate_system m) (normals m)
     (transforms m ++ [x]) (segmentations m) (vertex_data m).
Definition add_segmentation (x : Segmentation.t) (m : t) : t :=
  mk (vertices m) (triangles m) (coordinate_system m) (normals m)
     (transforms m) (segmentations m ++ [x]) (vertex_data m).
Definition add_vertex_data (x : VertexData.t) (m : t) : t :=
  mk (vertices m) (triangles m) (coordinate_system m) (normals m)
     (transforms m) (segmentations m) (vertex_data m ++ [x]).
End Mesh.

(* ===================================================================== *)
(** * The GIfTI objects of nibabel *)
(* ===================================================================== *)

Module Nifti.
(** The intents the module selects arrays by. *)
Inductive intent :=
| NIFTI_INTENT_NONE
| NIFTI_INTENT_POINTSET
| NIFTI_INTENT_TRIANGLE
| NIFTI_INTENT_VECTOR
| NIFTI_INTENT_LABEL
| NIFTI_INTENT_ESTIMATE.

#[global] Instance intent_eq_dec : EqDecision intent.
Proof. solve_decision. Defined.

(** The storage types the module declares for its arrays. *)
Inductive datatype := NIFTI_TYPE_FLOAT32 | NIFTI_TYPE_INT32.
End Nifti.
Import Nifti.

(** The name and value pairs of a [GiftiMetaData], in order. *)
Definition nvpairs := list (string * string).

(** [GiftiMetaData.metadata]: the pairs as a dictionary; of two pairs with
    one name the later one is kept. *)
Definition metadata (data : nvpairs) : gmap string string :=
  foldl (fun d nv => <[nv.1 := nv.2]> d) ∅ data.

Module GiftiCoordSystem.
(** The coordinate-system record of a data array: the code of the space
    the data is in, the code of the space the matrix maps to, and the
    matrix. *)
Record t := mk { dataspace : Z; xformspace : Z; xform : matrix }.

Definition identity : matrix :=
  let o := float64_of_int 1 in
  let z := float64_of_int 0 in
  [[o; z; z; z]; [z; o; z; z]; [z; z; o; z]; [z; z; z; o]].

(** [GiftiCoordSystem()]: codes 0 and the identity matrix. *)
Definition default : t := mk 0 0 identity.
End GiftiCoordSystem.

Module GiftiDataArray.
Record t := mk {
  data : ndarray;
  intent : Nifti.intent;
  datatype : Nifti.datatype;
  meta : nvpairs;
  coordsys : GiftiCoordSystem.t
}.

(** [GiftiDataArray(data, intent=, datatype=, meta=, coordsys=)]; a
    [coordsys] of [None] stands for [GiftiCoordSystem()]. *)
Definition init (data : ndarray) (i : Nifti.intent) (d : Nifti.datatype)
    (meta : nvpairs) (coordsys : option GiftiCoordSystem.t) : t :=
  mk data i d meta (default GiftiCoordSystem.default coordsys).
End GiftiDataArray.

Module GiftiLabel.
(** An entry of the label table: a key, a display name and up to four
    colour channels; a channel that was never set is [None]. *)
Record t := mk {
  key : Z;
  label : string;
  red : option float;
  green : option float;
  blue : option float;
  alpha : option float
}.

(** [GiftiLabel.rgba]. *)
Definition rgba (l : t) : list (option float) :=
  [red l; green l; blue l; alpha l].

(** [GiftiLabel(key, *color)] followed by the assignment of [label]: the
    colours are taken in the order red, green, blue, alpha, and those not
    given stay [None]. *)
Definition init (key : Z) (label : string) (color : list float) : t :=
  mk key label (color !! 0%nat) (color !! 1%nat) (color !! 2%nat)
     (color !! 3%nat).
End GiftiLabel.

Module GiftiImage.
Record t := mk {
  darrays : list GiftiDataArray.t;
  labeltable : list GiftiLabel.t;
  meta : nvpairs
}.

(** [GiftiImage()]. *)
Definition empty : t := mk [] [] [].

(** [gii.get_arrays_from_intent(i)]: the arrays of intent [i], in the
    order of the container. *)
Definition get_arrays_from_intent (i : Nifti.intent) (gii : t)
    : list GiftiDataArray.t :=
  filter (fun a => GiftiDataArray.intent a = i) (darrays gii).

(** [gii.add_gifti_data_array(a)]. *)
Definition add_gifti_data_array (a : GiftiDataArray.t) (gii : t) : t :=
  mk (darrays gii ++ [a]) (labeltable gii) (meta gii).

Definition set_labeltable (l : list GiftiLabel.t) (gii : t) : t :=
  mk (darrays gii) l (meta gii).

Definition append_meta (nv : string * string) (gii : t) : t :=
  mk (darrays gii) (labeltable gii) (meta gii ++ [nv]).
End GiftiImage.

(** What a data array holds once written to a file: its data in the
    declared storage type.  The metadata, the transform record and the
    label table are kept as they are. *)
Definition stored_data (d : Nifti.datatype) (a : ndarray) : ndarray :=
  match d with
  | NIFTI_TYPE_FLOAT32 => astype_f4 a
  | NIFTI_TYPE_INT32 => astype_i4 a
  end.

Definition stored_array (a : GiftiDataArray.t) : GiftiDataArray.t :=
  GiftiDataArray.mk
    (stored_data (GiftiDataArray.datatype a) (GiftiDataArray.data a))
    (GiftiDataArray.intent a) (GiftiDataArray.datatype a)
    (GiftiDataArray.meta a) (GiftiDataArray.coordsys a).

Definition stored_image (gii : GiftiImage.t) : GiftiImage.t :=
  GiftiImage.mk (map stored_array (GiftiImage.darrays gii))
    (GiftiImage.labeltable gii) (GiftiImage.meta gii).

(* ===================================================================== *)
(** * Files and warnings *)
(* ===================================================================== *)

(** What the functions of the module act on: the GIfTI files, by name, and
    the warnings issued so far. *)
Record world := World {
  files : gmap string GiftiImage.t;
  warnings : list warning
}.

(** A computation that reads and writes files, issues warnings and may
    raise an exception.  The warnings issued before an exception stay. *)
Definition M (A : Type) : Type := world -> result A * world.

Definition ret {A} (a : A) : M A := fun w => (Return a, w).

Definition raise {A} (e : exn) : M A := fun w => (Raise e, w).

Definition bind {A B} (m : M A) (k : A -> M B) : M B :=
  fun w =>
    match m w with
    | (Return a, w') => k a w'
    | (Raise e, w') => (Raise e, w')
    end.

Definition lift {A} (r : result A) : M A := fun w => (r, w).

Notation "'let!' x ':=' m 'in' k" := (bind m (fun x => k))
  (at level 10, x name, m at level 100, k at level 200).

Notation "'let?' x ':=' r 'in' k" := (result_bind r (fun x => k))
  (at level 10, x name, r at level 100, k at level 200).

(** [warnings.warn(msg, c)]. *)
Definition warn (c : category) (msg : string) : M unit :=
  fun w => (Return tt, World (files w) (warnings w ++ [Warning c msg])).

(** [nib.load(filename)]. *)
Definition nib_load (filename : string) : M GiftiImage.t :=
  fun w =>
    match files w !! filename with
    | Some gii => (Return gii, w)
    | None => (Raise (FileNotFoundError filename), w)
    end.

(** [nib.save(gii, filename)]: the file is replaced if it exists. *)
Definition nib_save (gii : GiftiImage.t) (filename : string) : M unit :=
  fun w =>
    (Return tt, World (<[filename := stored_image gii]> (files w))
                      (warnings w)).

(** [a.astype(t)], with the warning numpy issues when a value does not
    fit. *)
Definition astype (t : dtype) (a : ndarray) : M ndarray :=
  match t with
  | f4 =>
      let! _ :=
        if overflow_in_cast a
        then warn RuntimeWarning "overflow encountered in cast"
        else ret tt in
      ret (astype_f4 a)
  | i4 =>
      let! _ :=
        if invalid_in_cast a
        then warn RuntimeWarning "invalid value encountered in cast"
        else ret tt in
      ret (astype_i4 a)
  end.

(** [for x in xs: body(x)] with an accumulator. *)
Fixpoint for_each {A S} (xs : list A) (body : A -> S -> M S) (s : S) : M S :=
  match xs with
  | [] => ret s
  | x :: xs' => let! s' := body x s in for_each xs' body s'
  end.

(* ===================================================================== *)
(** * The functions of gifti.py *)
(* ===================================================================== *)

Definition repr_CoordinateSystem (c : CoordinateSystem) : string :=
  match c with
  | UNKNOWN => "<CoordinateSystem.UNKNOWN>"
  | SCANNER => "<CoordinateSystem.SCANNER>"
  | RAS => "<CoordinateSystem.RAS>"
  | LPS => "<CoordinateSystem.LPS>"
  | VOXEL => "<CoordinateSystem.VOXEL>"
  | MNI => "<CoordinateSystem.MNI>"
  | TALAIRACH => "<CoordinateSystem.TALAIRACH>"
  end.

(** Converts coordinate systems to NIfTI xform codes. *)
Definition _convert_coord_sys_to_nifti_code (coord_sys : CoordinateSystem)
    : result Z :=
  let convert :=
    [(UNKNOWN, 0); (SCANNER, 1); (RAS, 2); (LPS, 2); (VOXEL, 0);
     (MNI, 4); (TALAIRACH, 3)] in
  getitem repr_CoordinateSystem convert coord_sys.

(** Converts a NIfTI xform code to a coordinate system. *)
Definition _convert_nifti_code_to_coord_sys (code : Z)
    : result CoordinateSystem :=
  let convert :=
    [(0, UNKNOWN); (1, SCANNER); (2, UNKNOWN); (3, TALAIRACH); (4, MNI)] in
  getitem str convert code.

(** [np.array(label.color) / 255] on one channel. *)
Definition encode_channel (c : Z) : float :=
  true_divide (float64_of_int c) (float64_of_int 255).

(** [np.round(x * 255).astype(int)] on one channel. *)
Definition decode_channel (x : float) : Z :=
  round_astype_int (multiply x (float64_of_int 255)).

(** [np.round(np.array(label.rgba) * 255).astype(int)]: the product raises
    [TypeError] when a channel of the entry is [None]. *)
Definition decode_rgba (l : GiftiLabel.t) : result Color.t :=
  match GiftiLabel.red l, GiftiLabel.green l,
        GiftiLabel.blue l, GiftiLabel.alpha l with
  | Some r, Some g, Some b, Some a =>
      Return (Color.RGBA (decode_channel r) (decode_channel g)
                (decode_channel b) (decode_channel a))
  | _, _, _, _ =>
      Raise (TypeError
        "unsupported operand type(s) for *: 'NoneType' and 'int'")
  end.

(** Adds a segmentation to a nibabel GifTI object: one label array, named
    in its metadata, and the label table. *)
Definition add_segmentation_to_gii (segmentation : Segmentation.t)
    (gii : GiftiImage.t) : GiftiImage.t :=
  let meta := [("name", Segmentation.name segmentation)] in
  let label_array :=
    GiftiDataArray.init (Segmentation.keys segmentation)
      NIFTI_INTENT_LABEL NIFTI_TYPE_INT32 meta None in
  let gii := GiftiImage.add_gifti_data_array label_array gii in
  let gii_label_table :=
    map (fun '(key, label) =>
           let color :=
             map encode_channel (Color.channels (Label.color label)) in
           GiftiLabel.init key (Label.name label) color)
        (Segmentation.labels segmentation) in
  GiftiImage.set_labeltable gii_label_table gii.

(** Adds per vertex data to a nibabel GIfTI object. *)
Definition _add_vertex_data_to_gii (vertex_data : VertexData.t)
    (gii : GiftiImage.t) : M GiftiImage.t :=
  let! data := astype f4 (VertexData.data vertex_data) in
  let vertex_data_array :=
    GiftiDataArray.init data
      NIFTI_INTENT_ESTIMATE NIFTI_TYPE_FLOAT32
      [("name", VertexData.name vertex_data)] None in
  ret (GiftiImage.add_gifti_data_array vertex_data_array gii).

(** Creates a segmentation from a nibabel GifTI object, [None] when no
    array has the label intent. *)
Definition _create_segmentation_from_gii (gii : GiftiImage.t)
    : M (option Segmentation.t) :=
  let label_arrays := GiftiImage.get_arrays_from_intent NIFTI_INTENT_LABEL gii in
  match label_arrays with
  | [] => ret None
  | label_array :: others =>
      let! _ :=
        match others with
        | [] => ret tt
        | _ :: _ =>
            warn RuntimeWarning
              ("The file contains more than one label array. The " +:+
               "first one was used. Proceed with caution.")
        end in
      let labels := GiftiDataArray.data label_array in
      let! name :=
        lift (match metadata (GiftiDataArray.meta label_array) !! "name" with
              | Some name => Return name
              | None => Raise (KeyError "'name'")
              end) in
      let segmentation := Segmentation.init name labels in
      let! segmentation :=
        for_each (GiftiImage.labeltable gii)
          (fun label segmentation =>
             let! color := lift (decode_rgba label) in
             ret (Segmentation.add_label (GiftiLabel.key label)
                    (Label.mk (GiftiLabel.label label) color) segmentation))
          segmentation in
      ret (Some segmentation)
  end.

(** Returns the per vertex data contained in a GIfTI object: one item per
    estimate array that has a name, in order; an array without a name is
    skipped with a warning. *)
Definition _get_vertex_data_from_gii (gii : GiftiImage.t)
    : M (list VertexData.t) :=
  let vertex_data_arrays :=
    GiftiImage.get_arrays_from_intent NIFTI_INTENT_ESTIMATE gii in
  for_each vertex_data_arrays
    (fun vertex_data_array vertex_datas =>
       match metadata (GiftiDataArray.meta vertex_data_array) !! "name" with
       | None =>
           let! _ :=
             warn UserWarning
               ("The file contains a vertex data array without " +:+
                "a name. It was ignored.") in
           ret vertex_datas
       | Some name =>
           ret (vertex_datas ++
                [VertexData.mk name (GiftiDataArray.data vertex_data_array)])
       end)
    [].

Section Gifti.

(** [value c] is [c.value], the integer of a member of the enumeration. *)
Variable value : CoordinateSystem -> Z.

(** [CoordinateSystem(v)]: the member of value [v], [ValueError] when
    there is none. *)
Definition CoordinateSystem_of_value (v : Z) : result CoordinateSystem :=
  match List.find (fun c => bool_decide (value c = v))
          CoordinateSystem_members with
  | Some c => Return c
  | None => Raise (ValueError (str v +:+ " is not a valid CoordinateSystem"))
  end.

(** Gets the affine transform from a GIfTI vertex array. *)
Definition _get_transform_from_vertex_array (vertex_array : GiftiDataArray.t)
    : result (option AffineTransform.t) :=
  let gifti_transform := GiftiDataArray.coordsys vertex_array in
  match metadata (GiftiDataArray.meta vertex_array) !! "tcs" with
  | Some tcs =>
      let? v := int tcs in
      let? cs := CoordinateSystem_of_value v in
      Return (Some (AffineTransform.mk cs
                      (GiftiCoordSystem.xform gifti_transform)))
  | None =>
      if bool_decide (GiftiCoordSystem.dataspace gifti_transform
                      <> GiftiCoordSystem.xformspace gifti_transform)
      then
        let? cs := _convert_nifti_code_to_coord_sys
                     (GiftiCoordSystem.xformspace gifti_transform) in
        Return (Some (AffineTransform.mk cs
                        (GiftiCoordSystem.xform gifti_transform)))
      else Return None
  end.

(** Loads a mesh from a GifTI file. *)
Definition load (filename : string) : M Mesh.t :=
  let! gii := nib_load filename in
  let vertex_arrays :=
    GiftiImage.get_arrays_from_intent NIFTI_INTENT_POINTSET gii in
  let! vertex_array :=
    match vertex_arrays with
    | [] =>
        raise (ValueError
                 (format "The file " " does not contain any vertex data."
                    filename))
    | [vertex_array] => ret vertex_array
    | vertex_array :: _ =>
        let! _ :=
          warn RuntimeWarning
            (format "The file "
               (" contains more than one vertex array. The " +:+
                "first one was used. Proceed with caution.")
               filename) in
        ret vertex_array
    end in
  let vertices := GiftiDataArray.data vertex_array in
  let! coordinate_system :=
    lift (match metadata (GiftiDataArray.meta vertex_array) !! "cs" with
          | Some cs => let? v := int cs in CoordinateSystem_of_value v
          | None =>
              _convert_nifti_code_to_coord_sys
                (GiftiCoordSystem.dataspace
                   (GiftiDataArray.coordsys vertex_array))
          end) in
  let triangle_arrays :=
    GiftiImage.get_arrays_from_intent NIFTI_INTENT_TRIANGLE gii in
  let! triangle_array :=
    match triangle_arrays with
    | [] =>
        raise (ValueError
                 (format "The file " " does not contain any triangles."
                    filename))
    | [triangle_array] => ret triangle_array
    | triangle_array :: _ =>
        let! _ :=
          warn RuntimeWarning
            (format "The file "
               (" contains more than one triangle array. " +:+
                "The first one was used. Proceed with caution.")
               filename) in
        ret triangle_array
    end in
  let triangles := GiftiDataArray.data triangle_array in
  let normals_arrays :=
    GiftiImage.get_arrays_from_intent NIFTI_INTENT_VECTOR gii in
  let! normals :=
    match normals_arrays with
    | [] => ret None
    | [normals_array] => ret (Some (GiftiDataArray.data normals_array))
    | normals_array :: _ =>
        let! _ :=
          warn UserWarning
            (format "The file "
               (" contains more than one vector array. " +:+
                "The first one was interpreted as mesh normals. " +:+
                "Proceed with caution.")
               filename) in
        ret (Some (GiftiDataArray.data normals_array))
    end in
  let mesh := Mesh.init vertices triangles coordinate_system normals in
  let! transform := lift (_get_transform_from_vertex_array vertex_array) in
  let mesh :=
    match transform with
    | Some transform => Mesh.add_transform transform mesh
    | None => mesh
    end in
  let! segmentation := _create_segmentation_from_gii gii in
  let mesh :=
    match segmentation with
    | Some segmentation => Mesh.add_segmentation segmentation mesh
    | None => mesh
    end in
  let! vertex_datas := _get_vertex_data_from_gii gii in
  ret (foldl (fun mesh vertex_data => Mesh.add_vertex_data vertex_data mesh)
         mesh vertex_datas).

(** Loads a segmentation from a GifTI file. *)
Definition load_segmentation (filename : string) : M Segmentation.t :=
  let! gii := nib_load filename in
  let! segmentation := _create_segmentation_from_gii gii in
  match segmentation with
  | None =>
      raise (ValueError
               (format "The file "
                  " does not contain any segmentation data." filename))
  | Some segmentation => ret segmentation
  end.

(** Saves a mesh to a GifTI file. *)
Definition save (filename : string) (mesh : Mesh.t)
    (anatomical_structure_primary anatomical_structure_secondary
       geometric_type : string) : M unit :=
  let gii := GiftiImage.empty in
  let segmentations := Mesh.segmentations mesh in
  let! _ :=
    match segmentations with
    | _ :: _ :: _ =>
        warn UserWarning
          ("The mesh has more that one segmentation, but GifTI " +:+
           "only supports one segmentation per file. Only the " +:+
           "first segmentation will be saved.")
    | _ => ret tt
    end in
  let gii :=
    match segmentations with
    | [] => gii
    | segmentation :: _ => add_segmentation_to_gii segmentation gii
    end in
  let meta := [("cs", str (value (Mesh.coordinate_system mesh)))] in
  let transforms := Mesh.transforms mesh in
  let! _ :=
    match transforms with
    | _ :: _ :: _ =>
        warn UserWarning
          ("The mesh has more than one transform but GifTI only " +:+
           "supports a single transform. Only the first one will " +:+
           "be saved.")
    | _ => ret tt
    end in
  let! meta_coordinate_system :=
    match transforms with
    | [] => ret (meta, None)
    | transform :: _ =>
        let! dataspace :=
          lift (_convert_coord_sys_to_nifti_code
                  (Mesh.coordinate_system mesh)) in
        let! xformspace :=
          lift (_convert_coord_sys_to_nifti_code
                  (AffineTransform.transform_coord_sys transform)) in
        ret (meta ++
             [("tcs",
               str (value (AffineTransform.transform_coord_sys transform)))],
             Some (GiftiCoordSystem.mk dataspace xformspace
                     (AffineTransform.affine transform)))
    end in
  let meta := meta_coordinate_system.1 in
  let coordinate_system := meta_coordinate_system.2 in
  let meta :=
    meta ++
    [("AnatomicalStructurePrimary", anatomical_structure_primary);
     ("AnatomicalStructureSecondary", anatomical_structure_secondary);
     ("GeometricType", geometric_type)] in
  let! vertices := astype f4 (Mesh.vertices mesh) in
  let vertices_array :=
    GiftiDataArray.init vertices
      NIFTI_INTENT_POINTSET NIFTI_TYPE_FLOAT32 meta coordinate_system in
  let gii := GiftiImage.add_gifti_data_array vertices_array gii in
  let! triangles := astype i4 (Mesh.triangles mesh) in
  let triangles_array :=
    GiftiDataArray.init triangles
      NIFTI_INTENT_TRIANGLE NIFTI_TYPE_INT32 [] None in
  let gii := GiftiImage.add_gifti_data_array triangles_array gii in
  let! gii :=
    match Mesh.normals mesh with
    | Some normals =>
        let! normals := astype f4 normals in
        ret (GiftiImage.add_gifti_data_array
               (GiftiDataArray.init normals
                  NIFTI_INTENT_VECTOR NIFTI_TYPE_FLOAT32 [] None) gii)
    | None => ret gii
    end in
  let! gii :=
    for_each (Mesh.vertex_data mesh)
      (fun vertex_data gii => _add_vertex_data_to_gii vertex_data gii)
      gii in
  nib_save gii filename.

(** Saves a segmentation to a GifTI file. *)
Definition save_segmentation (filename : string)
    (segmentation : Segmentation.t)
    (anatomical_structure_primary anatomical_structure_secondary
       geometric_type : string) : M unit :=
  let gii := GiftiImage.empty in
  let gii :=
    GiftiImage.append_meta
      ("AnatomicalStructurePrimary", anatomical_structure_primary) gii in
  let gii :=
    GiftiImage.append_meta
      ("AnatomicalStructureSecondary", anatomical_structure_secondary) gii in
  let gii := GiftiImage.append_meta ("GeometricType", geometric_type) gii in
  let gii := add_segmentation_to_gii segmentation gii in
  nib_save gii filename.

(** Loads per vertex data from a GIfTI file. *)
Definition load_vertex_data (filename : string) : M VertexData.t :=
  let! gii := nib_load filename in
  let! vertex_data_list := _get_vertex_data_from_gii gii in
  match vertex_data_list with
  | [] =>
      raise (ValueError
               (format "The file " " does not contain any vertex data."
                  filename))
  | [vertex_data] => ret vertex_data
  | vertex_data :: _ =>
      let! _ :=
        warn UserWarning
          (format "The file "
             (" contains more than one vertex data. Only " +:+
              "the first was loaded. Proceed with caution.")
             filename) in
      ret vertex_data
  end.

(** Saves per vertex data to a GIfTI file. *)
Definition save_vertex_data (filename : string) (vertex_data : VertexData.t)
    : M unit :=
  let gii := GiftiImage.empty in
  let! gii := _add_vertex_data_to_gii vertex_data gii in
  nib_save gii filename.

End Gifti.

(** The default workbench tags of [save] and [save_segmentation]. *)
Definition default_primary : string := "Cortex".
Definition default_secondary : string := "GrayWhite".
Definition default_geometric_type : string := "Anatomical".

(* ===================================================================== *)
(** * Properties *)
(* ===================================================================== *)

(** ** Python and numpy facts *)

Lemma isdigit_not_space (c : ascii) : isdigit c = true -> isspace c = false.
Proof.
  unfold isdigit, isspace. cbv zeta. generalize (nat_of_ascii c).
  intros n H. apply andb_prop in H as [H1 H2].
  apply Nat.leb_le in H1. apply Nat.leb_le in H2.
  apply orb_false_iff. split; apply andb_false_iff; right;
    apply Nat.leb_gt; lia.
Qed.

Lemma isdigit_not (c a : ascii) :
  isdigit c = true -> isdigit a = false -> Ascii.eqb c a = false.
Proof. intros H1 H2. apply Ascii.eqb_neq. intros ->. congruence. Qed.

Lemma digits_of_uint (d : Decimal.uint) :
  Forall (fun c => isdigit c = true)
    (list_ascii_of_string (NilEmpty.string_of_uint d)).
Proof. induction d; simpl; constructor; auto. Qed.

Lemma lstrip_no_space (l : list ascii) :
  Forall (fun c => isspace c = false) l -> lstrip l = l.
Proof.
  intros H. destruct l as [|c l]; [reflexivity|].
  inversion H as [|? ? Hc _]; subst. simpl. now rewrite Hc.
Qed.

Lemma strip_no_space (l : list ascii) :
  Forall (fun c => isspace c = false) l -> strip l = l.
Proof.
  intros H. unfold strip. rewrite (lstrip_no_space l H).
  rewrite lstrip_no_space by now apply Forall_rev.
  apply rev_involutive.
Qed.

Lemma ungroup_digits (l : list ascii) :
  l <> [] -> Forall (fun c => isdigit c = true) l -> ungroup l = Some l.
Proof.
  induction l as [|c l IH]; [congruence|]. intros _ H.
  inversion H as [|? ? Hc Hl]; subst. simpl. rewrite Hc.
  destruct l as [|c' l']; [reflexivity|].
  inversion Hl as [|? ? Hc' _]; subst.
  rewrite (isdigit_not c' "_" Hc') by reflexivity.
  rewrite IH; [reflexivity|congruence|assumption].
Qed.

Lemma int_literal_digits (negative : bool) (p : positive) :
  int_literal
    ((if negative then "-" else "")
     +:+ NilEmpty.string_of_uint (Pos.to_uint p))
  = Some (if negative then Z.neg p else Z.pos p).
Proof.
  unfold int_literal.
  pose proof (digits_of_uint (Pos.to_uint p)) as Hd.
  assert (Hnil : list_ascii_of_string
                   (NilEmpty.string_of_uint (Pos.to_uint p)) <> []).
  { pose proof (DecimalPos.Unsigned.to_uint_nonnil p).
    destruct (Pos.to_uint p); simpl; congruence. }
  assert (Hs : Forall (fun c => isspace c = false)
                 (list_ascii_of_string
                    (NilEmpty.string_of_uint (Pos.to_uint p))))
    by (eapply Forall_impl; [exact Hd|]; intros c; apply isdigit_not_space).
  destruct negative.
  - change (list_ascii_of_string
              ("-" +:+ NilEmpty.string_of_uint (Pos.to_uint p)))
      with ("-"%char
            :: list_ascii_of_string
                 (NilEmpty.string_of_uint (Pos.to_uint p))).
    rewrite strip_no_space by (constructor; [reflexivity|exact Hs]).
    change (Ascii.eqb "-" "-") with true. cbv beta iota zeta.
    rewrite ungroup_digits by assumption.
    cbn [mbind option_bind].
    rewrite string_of_list_ascii_of_string, NilEmpty.usu.
    cbn [mbind option_bind]. f_equal.
    exact (DecimalZ.of_to (Z.neg p)).
  - change ("" +:+ NilEmpty.string_of_uint (Pos.to_uint p))
      with (NilEmpty.string_of_uint (Pos.to_uint p)).
    rewrite strip_no_space by exact Hs.
    destruct (list_ascii_of_string
                (NilEmpty.string_of_uint (Pos.to_uint p)))
      as [|c l] eqn:El; [congruence|].
    inversion Hd as [|? ? Hc _]; subst.
    rewrite (isdigit_not c "-" Hc), (isdigit_not c "+" Hc) by reflexivity.
    rewrite ungroup_digits by (congruence || assumption).
    cbn [mbind option_bind].
    rewrite <- El, string_of_list_ascii_of_string, NilEmpty.usu.
    cbn [mbind option_bind]. f_equal.
    exact (DecimalZ.of_to (Z.pos p)).
Qed.

Lemma int_str (z : Z) : int (str z) = Return z.
Proof.
  unfold int.
  enough (int_literal (str z) = Some z) as -> by reflexivity.
  unfold str. destruct z as [|p|p]; [reflexivity| |].
  - pose proof (int_literal_digits false p) as H.
    pose proof (DecimalPos.Unsigned.to_uint_nonnil p).
    simpl Z.to_int. cbn [NilZero.string_of_int].
    replace (NilZero.string_of_uint (Pos.to_uint p))
      with (NilEmpty.string_of_uint (Pos.to_uint p))
      by (destruct (Pos.to_uint p); [congruence|reflexivity..]).
    exact H.
  - pose proof (int_literal_digits true p) as H.
    pose proof (DecimalPos.Unsigned.to_uint_nonnil p).
    simpl Z.to_int. cbn [NilZero.string_of_int].
    replace (NilZero.string_of_uint (Pos.to_uint p))
      with (NilEmpty.string_of_uint (Pos.to_uint p))
      by (destruct (Pos.to_uint p); [congruence|reflexivity..]).
    exact H.
Qed.

Lemma astype_f4_idem (a : ndarray) : astype_f4 (astype_f4 a) = astype_f4 a.
Proof. destruct a as [[] ? ?|? ? ?]; reflexivity. Qed.

Lemma astype_i4_idem (a : ndarray) : astype_i4 (astype_i4 a) = astype_i4 a.
Proof. destruct a as [? ? ?|[] ? ?]; reflexivity. Qed.

Lemma int32_of_int_small (z : Z) : in_int32 z -> int32_of_int z = z.
Proof.
  unfold in_int32, int32_of_int, wrap. intros H.
  rewrite Z.mod_small; lia.
Qed.

(** ** The registry *)

(** The code [_convert_coord_sys_to_nifti_code] finds for each member. *)
Definition nifti_code (c : CoordinateSystem) : Z :=
  match c with
  | UNKNOWN | VOXEL => 0
  | SCANNER => 1
  | RAS | LPS => 2
  | TALAIRACH => 3
  | MNI => 4
  end.

Lemma to_code_nifti_code (c : CoordinateSystem) :
  _convert_coord_sys_to_nifti_code c = Return (nifti_code c).
Proof. destruct c; reflexivity. Qed.

(** C4, as stated, fails: the decoding table has no entry for code 5 and
    no fallback; the lookup raises [KeyError] instead of returning
    UNKNOWN. *)
Lemma from_code_5_raises :
  _convert_nifti_code_to_coord_sys 5 = Raise (KeyError "5") /\
  ~ (exists c, _convert_nifti_code_to_coord_sys 5 = Return c).
Proof. split; [reflexivity|]. intros [c H]. discriminate H. Qed.

(** C4, amended: [_convert_coord_sys_to_nifti_code] returns a code between
    0 and 4 for every member of the enumeration;
    [_convert_nifti_code_to_coord_sys] returns a coordinate system for the
    codes 0 to 4, and raises [KeyError] for every other integer. *)
Theorem registry_conversions :
  (forall c : CoordinateSystem,
     exists z, _convert_coord_sys_to_nifti_code c = Return z /\ 0 <= z <= 4)
  /\
  (forall code : Z,
     if (0 <=? code) && (code <=? 4)
     then exists c, _convert_nifti_code_to_coord_sys code = Return c
     else _convert_nifti_code_to_coord_sys code = Raise (KeyError (str code))).
Proof.
  split.
  - intros c. exists (nifti_code c). split.
    + apply to_code_nifti_code.
    + destruct c; simpl; lia.
  - intros code.
    destruct ((0 <=? code) && (code <=? 4)) eqn:E.
    + apply andb_prop in E as [E1 E2].
      apply Z.leb_le in E1. apply Z.leb_le in E2.
      assert (code = 0 \/ code = 1 \/ code = 2 \/ code = 3 \/ code = 4)
        as [-> | [-> | [-> | [-> | ->]]]] by lia;
        eexists; reflexivity.
    + unfold _convert_nifti_code_to_coord_sys, getitem. simpl.
      apply andb_false_iff in E.
      repeat (case_decide; [exfalso; subst; simpl in E;
                            destruct E; discriminate|]).
      reflexivity.
Qed.

(** ** The colour channels of a label *)

(** A thousand times the value of a number, rounded to the nearest
    integer: its first three decimals. *)
Definition thousandths (x : float) : Z :=
  match x with
  | S754_finite s m e => rint s (1000 * m) e
  | _ => 0
  end.

Lemma decode_encode_channel (c : Z) :
  0 <= c <= 255 -> decode_channel (encode_channel c) = c.
Proof.
  intros H.
  assert (A : forallb
                (fun n => decode_channel (encode_channel (Z.of_nat n))
                          =? Z.of_nat n)
                (seq 0 256) = true) by (vm_compute; reflexivity).
  rewrite forallb_forall in A.
  specialize (A (Z.to_nat c)).
  rewrite Z2Nat.id in A by lia.
  apply Z.eqb_eq, A, in_seq. lia.
Qed.

(** C8, at the colour of the claim: the label colour (255, 128, 0) is
    encoded as the channels 1.0, 0.502 (to three decimals) and 0.0, and
    the entry of the label table gets no alpha channel; decoding that
    entry raises [TypeError], although the three channels alone would give
    255, 128 and 0 back. *)
Theorem rgb_label_is_not_decoded :
  let segmentation :=
    Segmentation.mk "lobes" (int_array false [1%nat] [1])
      [(1, Label.mk "frontal" (Color.RGB 255 128 0))] in
  exists (entry : GiftiLabel.t) (green : float),
    GiftiImage.labeltable
      (add_segmentation_to_gii segmentation GiftiImage.empty) = [entry] /\
    GiftiLabel.rgba entry
    = [Some (float64_of_int 1); Some green; Some (float64_of_int 0); None] /\
    thousandths green = 502 /\
    map decode_channel [float64_of_int 1; green; float64_of_int 0]
    = [255; 128; 0] /\
    decode_rgba entry
    = Raise (TypeError
               "unsupported operand type(s) for *: 'NoneType' and 'int'").
Proof.
  cbv zeta. eexists. exists (encode_channel 128).
  split; [reflexivity|].
  repeat split; vm_compute; reflexivity.
Qed.

(** ** Running computations *)

Lemma bind_Return {A B} (m : M A) (k : A -> M B) w a w' :
  m w = (Return a, w') -> bind m k w = k a w'.
Proof. unfold bind. now intros ->. Qed.

Lemma bind_Raise {A B} (m : M A) (k : A -> M B) w e w' :
  m w = (Raise e, w') -> bind m k w = (Raise e, w').
Proof. unfold bind. now intros ->. Qed.

(** A computation that returns whatever the files and warnings are. *)
Definition succeeds {A} (m : M A) : Prop :=
  forall w, exists a w', m w = (Return a, w').

(** ** Selecting arrays *)

Lemma get_arrays_from_intent_darrays i ds lt md :
  GiftiImage.get_arrays_from_intent i (GiftiImage.mk ds lt md)
  = filter (fun a => GiftiDataArray.intent a = i) ds.
Proof. reflexivity. Qed.

Lemma filter_intent_map_ne {A} (f : A -> GiftiDataArray.t) i j (l : list A) :
  (forall x, GiftiDataArray.intent (f x) = j) -> j <> i ->
  filter (fun a => GiftiDataArray.intent a = i) (map f l) = [].
Proof.
  intros Hf Hne. induction l as [|x l IH]; [reflexivity|].
  simpl. rewrite filter_cons_False; [exact IH|].
  rewrite Hf. exact Hne.
Qed.

Lemma filter_intent_map_eq {A} (f : A -> GiftiDataArray.t) i (l : list A) :
  (forall x, GiftiDataArray.intent (f x) = i) ->
  filter (fun a => GiftiDataArray.intent a = i) (map f l) = map f l.
Proof.
  intros Hf. induction l as [|x l IH]; [reflexivity|].
  simpl. rewrite filter_cons_True by apply Hf. now rewrite IH.
Qed.

(** ** Per vertex data *)

(** The vertex data of an estimate array, when the array has a name. *)
Definition named_vertex_data (a : GiftiDataArray.t) : option VertexData.t :=
  match metadata (GiftiDataArray.meta a) !! "name" with
  | Some name => Some (VertexData.mk name (GiftiDataArray.data a))
  | None => None
  end.

(** The warning for an estimate array without a name. *)
Definition nameless_warning (a : GiftiDataArray.t) : option warning :=
  match metadata (GiftiDataArray.meta a) !! "name" with
  | Some _ => None
  | None =>
      Some (Warning UserWarning
              ("The file contains a vertex data array without " +:+
               "a name. It was ignored."))
  end.

Lemma for_each_vertex_data (l : list GiftiDataArray.t)
    (acc : list VertexData.t) (w : world) :
  for_each l
    (fun vertex_data_array vertex_datas =>
       match metadata (GiftiDataArray.meta vertex_data_array) !! "name" with
       | None =>
           let! _ :=
             warn UserWarning
               ("The file contains a vertex data array without " +:+
                "a name. It was ignored.") in
           ret vertex_datas
       | Some name =>
           ret (vertex_datas ++
                [VertexData.mk name (GiftiDataArray.data vertex_data_array)])
       end)
    acc w
  = (Return (acc ++ omap named_vertex_data l),
     World (files w) (warnings w ++ omap nameless_warning l)).
Proof.
  revert acc w. induction l as [|a l IH]; intros acc w.
  - simpl. unfold ret. rewrite !app_nil_r. now destruct w.
  - simpl. unfold named_vertex_data, nameless_warning.
    destruct (metadata (GiftiDataArray.meta a) !! "name") as [n|].
    + erewrite bind_Return by reflexivity.
      rewrite IH. now rewrite <- app_assoc.
    + erewrite bind_Return by (erewrite bind_Return by reflexivity; reflexivity).
      rewrite IH. simpl. now rewrite <- app_assoc.
Qed.

Lemma _get_vertex_data_from_gii_run (gii : GiftiImage.t) (w : world) :
  let arrays := GiftiImage.get_arrays_from_intent NIFTI_INTENT_ESTIMATE gii in
  _get_vertex_data_from_gii gii w
  = (Return (omap named_vertex_data arrays),
     World (files w) (warnings w ++ omap nameless_warning arrays)).
Proof. apply for_each_vertex_data. Qed.

(** C3, read as written: the list of the vertex data of all named estimate
    arrays, an error when there is none. *)
Definition decode_vertex_data_list (filename : string) (gii : GiftiImage.t)
    : result (list VertexData.t) :=
  match omap named_vertex_data
          (GiftiImage.get_arrays_from_intent NIFTI_INTENT_ESTIMATE gii) with
  | [] =>
      Raise (ValueError
               (format "The file " " does not contain any vertex data."
                  filename))
  | l => Return l
  end.

(** A container with two named estimate arrays. *)
Definition two_maps : GiftiImage.t :=
  GiftiImage.mk
    [GiftiDataArray.init (float_array true [2%nat] [float64_of_int 1; float64_of_int 2])
       NIFTI_INTENT_ESTIMATE NIFTI_TYPE_FLOAT32 [("name", "thickness")] None;
     GiftiDataArray.init (float_array true [2%nat] [float64_of_int 3; float64_of_int 4])
       NIFTI_INTENT_ESTIMATE NIFTI_TYPE_FLOAT32 [("name", "curvature")] None]
    [] [].

(** C3, as stated, fails: of two named estimate arrays [load_vertex_data]
    returns the vertex data of the first only, not the list of both. *)
Lemma load_vertex_data_two_maps :
  let w := World {["maps.func.gii" := two_maps]} [] in
  let first :=
    VertexData.mk "thickness"
      (float_array true [2%nat] [float64_of_int 1; float64_of_int 2]) in
  let second :=
    VertexData.mk "curvature"
      (float_array true [2%nat] [float64_of_int 3; float64_of_int 4]) in
  (load_vertex_data "maps.func.gii" w).1 = Return first /\
  decode_vertex_data_list "maps.func.gii" two_maps = Return [first; second] /\
  [first] <> [first; second].
Proof. vm_compute. repeat split. discriminate. Qed.

(** C3, amended: for a container with at least one named estimate array,
    [load_vertex_data] returns the vertex data of the first such array in
    container order (the others are left out, with a warning); it fails
    with [ValueError] naming the file when there is no such array. *)
Theorem load_vertex_data_first (filename : string) (gii : GiftiImage.t)
    (w : world) :
  files w !! filename = Some gii ->
  match omap named_vertex_data
          (GiftiImage.get_arrays_from_intent NIFTI_INTENT_ESTIMATE gii) with
  | [] =>
      exists w',
        load_vertex_data filename w
        = (Raise (ValueError
                    (format "The file " " does not contain any vertex data."
                       filename)), w')
  | [vertex_data] =>
      exists w', load_vertex_data filename w = (Return vertex_data, w')
  | vertex_data :: _ =>
      exists w',
        load_vertex_data filename w = (Return vertex_data, w') /\
        last (warnings w')
        = Some (Warning UserWarning
                  (format "The file "
                     (" contains more than one vertex data. Only " +:+
                      "the first was loaded. Proceed with caution.")
                     filename))
  end.
Proof.
  intros Hfile. unfold load_vertex_data.
  erewrite bind_Return by (unfold nib_load; rewrite Hfile; reflexivity).
  erewrite bind_Return by apply _get_vertex_data_from_gii_run.
  destruct (omap named_vertex_data _) as [|vd [|vd' l]].
  - eexists. reflexivity.
  - eexists. reflexivity.
  - eexists. split; [reflexivity|]. simpl. now rewrite last_snoc.
Qed.

Lemma load_vertex_data_first_witness :
  exists w',
    load_vertex_data "maps.func.gii"
      (World {["maps.func.gii" := two_maps]} [])
    = (Return (VertexData.mk "thickness"
                 (float_array true [2%nat]
                    [float64_of_int 1; float64_of_int 2])), w') /\
    last (warnings w')
    = Some (Warning UserWarning
              (format "The file "
                 (" contains more than one vertex data. Only " +:+
                  "the first was loaded. Proceed with caution.")
                 "maps.func.gii")).
Proof.
  apply (load_vertex_data_first "maps.func.gii" two_maps
           (World {["maps.func.gii" := two_maps]} [])).
  reflexivity.
Defined.

(** ** What [save] writes *)

(** The entry of the label table for a label and its key. *)
Definition label_entry (kl : Z * Label.t) : GiftiLabel.t :=
  let '(key, label) := kl in
  GiftiLabel.init key (Label.name label)
    (map encode_channel (Color.channels (Label.color label))).

Definition label_array (s : Segmentation.t) : GiftiDataArray.t :=
  GiftiDataArray.init (Segmentation.keys s)
    NIFTI_INTENT_LABEL NIFTI_TYPE_INT32 [("name", Segmentation.name s)] None.

Definition vertex_data_array (v : VertexData.t) : GiftiDataArray.t :=
  GiftiDataArray.init (astype_f4 (VertexData.data v))
    NIFTI_INTENT_ESTIMATE NIFTI_TYPE_FLOAT32
    [("name", VertexData.name v)] None.

Definition triangles_array (m : Mesh.t) : GiftiDataArray.t :=
  GiftiDataArray.init (astype_i4 (Mesh.triangles m))
    NIFTI_INTENT_TRIANGLE NIFTI_TYPE_INT32 [] None.

Definition normals_array (n : ndarray) : GiftiDataArray.t :=
  GiftiDataArray.init (astype_f4 n)
    NIFTI_INTENT_VECTOR NIFTI_TYPE_FLOAT32 [] None.

Definition segmentation_warning : warning :=
  Warning UserWarning
    ("The mesh has more that one segmentation, but GifTI " +:+
     "only supports one segmentation per file. Only the " +:+
     "first segmentation will be saved.").

Definition transform_warning : warning :=
  Warning UserWarning
    ("The mesh has more than one transform but GifTI only " +:+
     "supports a single transform. Only the first one will " +:+
     "be saved.").

Definition overflow_warning : warning :=
  Warning RuntimeWarning "overflow encountered in cast".

Definition invalid_warning : warning :=
  Warning RuntimeWarning "invalid value encountered in cast".

(** The warning of a cast, if any. *)
Definition cast_warnings (t : dtype) (a : ndarray) : list warning :=
  match t with
  | f4 => if overflow_in_cast a then [overflow_warning] else []
  | i4 => if invalid_in_cast a then [invalid_warning] else []
  end.

(** The warnings of [save] for a mesh, in order. *)
Definition save_warnings (m : Mesh.t) : list warning :=
  (match Mesh.segmentations m with
   | _ :: _ :: _ => [segmentation_warning]
   | _ => []
   end) ++
  (match Mesh.transforms m with
   | _ :: _ :: _ => [transform_warning]
   | _ => []
   end) ++
  cast_warnings f4 (Mesh.vertices m) ++
  cast_warnings i4 (Mesh.triangles m) ++
  (match Mesh.normals m with
   | Some n => cast_warnings f4 n
   | None => []
   end) ++
  flat_map (fun v => cast_warnings f4 (VertexData.data v))
    (Mesh.vertex_data m).

Lemma astype_f4_run (a : ndarray) (w : world) :
  astype f4 a w
  = (Return (astype_f4 a),
     World (files w) (warnings w ++ cast_warnings f4 a)).
Proof.
  unfold astype, cast_warnings, bind, warn, ret.
  destruct (overflow_in_cast a); simpl; [reflexivity|].
  rewrite app_nil_r. now destruct w.
Qed.

Lemma astype_i4_run (a : ndarray) (w : world) :
  astype i4 a w
  = (Return (astype_i4 a),
     World (files w) (warnings w ++ cast_warnings i4 a)).
Proof.
  unfold astype, cast_warnings, bind, warn, ret.
  destruct (invalid_in_cast a); simpl; [reflexivity|].
  rewrite app_nil_r. now destruct w.
Qed.

Lemma add_segmentation_to_gii_eq (s : Segmentation.t) (gii : GiftiImage.t) :
  add_segmentation_to_gii s gii
  = GiftiImage.mk (GiftiImage.darrays gii ++ [label_array s])
      (map label_entry (Segmentation.labels s)) (GiftiImage.meta gii).
Proof.
  reflexivity.
Qed.

Lemma _add_vertex_data_to_gii_run (v : VertexData.t) (gii : GiftiImage.t)
    (w : world) :
  _add_vertex_data_to_gii v gii w
  = (Return (GiftiImage.add_gifti_data_array (vertex_data_array v) gii),
     World (files w) (warnings w ++ cast_warnings f4 (VertexData.data v))).
Proof.
  unfold _add_vertex_data_to_gii.
  erewrite bind_Return by apply astype_f4_run. reflexivity.
Qed.

Lemma for_each_add_vertex_data (vs : list VertexData.t) (gii : GiftiImage.t)
    (w : world) :
  for_each vs
    (fun vertex_data gii => _add_vertex_data_to_gii vertex_data gii) gii w
  = (Return (GiftiImage.mk
               (GiftiImage.darrays gii ++ map vertex_data_array vs)
               (GiftiImage.labeltable gii) (GiftiImage.meta gii)),
     World (files w)
       (warnings w
        ++ flat_map (fun v => cast_warnings f4 (VertexData.data v)) vs)).
Proof.
  revert gii w. induction vs as [|v vs IH]; intros gii w.
  - simpl. unfold ret. rewrite !app_nil_r. now destruct gii, w.
  - simpl. erewrite bind_Return by apply _add_vertex_data_to_gii_run.
    rewrite IH. simpl. now rewrite <- !app_assoc.
Qed.

(** An entry of the label table with its four colour channels. *)
Definition has_rgba (l : GiftiLabel.t) : bool :=
  match GiftiLabel.red l, GiftiLabel.green l,
        GiftiLabel.blue l, GiftiLabel.alpha l with
  | Some _, Some _, Some _, Some _ => true
  | _, _, _, _ => false
  end.

Definition none_times_int : exn :=
  TypeError "unsupported operand type(s) for *: 'NoneType' and 'int'".

Lemma for_each_label (table : list GiftiLabel.t) (s : Segmentation.t)
    (w : world) :
  exists r,
    for_each table
      (fun label segmentation =>
         let! color := lift (decode_rgba label) in
         ret (Segmentation.add_label (GiftiLabel.key label)
                (Label.mk (GiftiLabel.label label) color) segmentation))
      s w = (r, w) /\
    if forallb has_rgba table
    then exists s', r = Return s' /\
                    Segmentation.name s' = Segmentation.name s /\
                    Segmentation.keys s' = Segmentation.keys s
    else r = Raise none_times_int.
Proof.
  revert s. induction table as [|l table IH]; intros s.
  - eexists. split; [reflexivity|]. simpl. eauto.
  - simpl. unfold has_rgba at 1, decode_rgba at 1.
    destruct (GiftiLabel.red l) as [cr|], (GiftiLabel.green l) as [cg|],
      (GiftiLabel.blue l) as [cb|], (GiftiLabel.alpha l) as [ca|];
      try (eexists; split; [reflexivity|]; reflexivity).
    erewrite bind_Return by reflexivity.
    destruct (IH (Segmentation.add_label (GiftiLabel.key l)
                    (Label.mk (GiftiLabel.label l)
                       (Color.RGBA (decode_channel cr) (decode_channel cg)
                          (decode_channel cb) (decode_channel ca))) s))
      as (r & Hr & H).
    exists r. split; [exact Hr|]. simpl.
    destruct (forallb has_rgba table); [|exact H].
    destruct H as (s' & -> & Hn & Hk). eauto.
Qed.

Section SaveLoad.

Variable value : CoordinateSystem -> Z.

(** The metadata of the point set array of a mesh. *)
Definition pointset_meta (m : Mesh.t) (primary secondary type : string)
    : nvpairs :=
  [("cs", str (value (Mesh.coordinate_system m)))] ++
  (match Mesh.transforms m with
   | [] => []
   | t :: _ =>
       [("tcs", str (value (AffineTransform.transform_coord_sys t)))]
   end) ++
  [("AnatomicalStructurePrimary", primary);
   ("AnatomicalStructureSecondary", secondary);
   ("GeometricType", type)].

(** The transform record of the point set array of a mesh. *)
Definition pointset_coordsys (m : Mesh.t) : option GiftiCoordSystem.t :=
  match Mesh.transforms m with
  | [] => None
  | t :: _ =>
      Some (GiftiCoordSystem.mk
              (nifti_code (Mesh.coordinate_system m))
              (nifti_code (AffineTransform.transform_coord_sys t))
              (AffineTransform.affine t))
  end.

Definition vertices_array (m : Mesh.t) (primary secondary type : string)
    : GiftiDataArray.t :=
  GiftiDataArray.init (astype_f4 (Mesh.vertices m))
    NIFTI_INTENT_POINTSET NIFTI_TYPE_FLOAT32
    (pointset_meta m primary secondary type) (pointset_coordsys m).

(** The container [save] builds for a mesh. *)
Definition mesh_image (m : Mesh.t) (primary secondary type : string)
    : GiftiImage.t :=
  GiftiImage.mk
    ((match Mesh.segmentations m with
      | [] => []
      | s :: _ => [label_array s]
      end) ++
     [vertices_array m primary secondary type; triangles_array m] ++
     (match Mesh.normals m with
      | Some n => [normals_array n]
      | None => []
      end) ++
     map vertex_data_array (Mesh.vertex_data m))
    (match Mesh.segmentations m with
     | [] => []
     | s :: _ => map label_entry (Segmentation.labels s)
     end)
    [].

Lemma save_run (filename : string) (m : Mesh.t)
    (primary secondary type : string) (w : world) :
  save value filename m primary secondary type w
  = (Return tt,
     World (<[filename := stored_image (mesh_image m primary secondary type)]>
              (files w))
           (warnings w ++ save_warnings m)).
Proof.
  unfold save, mesh_image, save_warnings, vertices_array, pointset_meta,
    pointset_coordsys, triangles_array, normals_array.
  destruct m as [vs ts cs ns trs segs vds]. cbn [Mesh.vertices
    Mesh.triangles Mesh.coordinate_system Mesh.normals Mesh.transforms
    Mesh.segmentations Mesh.vertex_data].
  destruct segs as [|s [|s' segs]], trs as [|t [|t' trs]], ns as [n|];
    repeat (erewrite bind_Return
              by first [ apply astype_f4_run
                       | apply astype_i4_run
                       | apply for_each_add_vertex_data
                       | reflexivity
                       | (unfold lift; rewrite to_code_nifti_code;
                          reflexivity)
                       | (erewrite bind_Return by apply astype_f4_run;
                          reflexivity)
                       | (erewrite bind_Return
                            by (unfold lift; rewrite to_code_nifti_code;
                                reflexivity);
                          erewrite bind_Return
                            by (unfold lift; rewrite to_code_nifti_code;
                                reflexivity);
                          reflexivity) ]);
    unfold nib_save; cbn [files warnings fst snd];
    rewrite ?add_segmentation_to_gii_eq;
    cbn [GiftiImage.darrays GiftiImage.labeltable GiftiImage.meta
         GiftiImage.add_gifti_data_array GiftiImage.empty app];
    rewrite ?app_nil_r, <- ?app_assoc; reflexivity.
Qed.

Lemma get_arrays_stored_image (i : Nifti.intent) (gii : GiftiImage.t) :
  GiftiImage.get_arrays_from_intent i (stored_image gii)
  = map stored_array (GiftiImage.get_arrays_from_intent i gii).
Proof.
  unfold GiftiImage.get_arrays_from_intent, stored_image. simpl.
  induction (GiftiImage.darrays gii) as [|a l IH]; [reflexivity|].
  simpl. destruct (decide (GiftiDataArray.intent a = i)) as [E|E].
  - rewrite !filter_cons_True by exact E. simpl. now rewrite IH.
  - rewrite !filter_cons_False by exact E. exact IH.
Qed.

Lemma filter_vertex_data_arrays (i : Nifti.intent) (vs : list VertexData.t) :
  filter (fun a => GiftiDataArray.intent a = i) (map vertex_data_array vs)
  = if decide (i = NIFTI_INTENT_ESTIMATE) then map vertex_data_array vs
    else [].
Proof.
  destruct (decide (i = NIFTI_INTENT_ESTIMATE)) as [->|E].
  - now apply filter_intent_map_eq.
  - apply filter_intent_map_ne with (j := NIFTI_INTENT_ESTIMATE); auto.
Qed.

Ltac select_arrays :=
  unfold mesh_image; rewrite get_arrays_from_intent_darrays;
  rewrite !filter_app, filter_vertex_data_arrays;
  cbn [Mesh.segmentations Mesh.normals Mesh.vertex_data];
  repeat match goal with
         | |- context [match ?x with _ => _ end] => is_var x; destruct x
         end;
  reflexivity.

Lemma get_label_arrays (m : Mesh.t) (primary secondary type : string) :
  GiftiImage.get_arrays_from_intent NIFTI_INTENT_LABEL
    (mesh_image m primary secondary type)
  = match Mesh.segmentations m with
    | [] => []
    | s :: _ => [label_array s]
    end.
Proof.
  destruct m as [vs ts cs ns trs segs vds]; simpl. select_arrays.
Qed.

Lemma get_pointset_arrays (m : Mesh.t) (primary secondary type : string) :
  GiftiImage.get_arrays_from_intent NIFTI_INTENT_POINTSET
    (mesh_image m primary secondary type)
  = [vertices_array m primary secondary type].
Proof.
  destruct m as [vs ts cs ns trs segs vds]; simpl. select_arrays.
Qed.

Lemma get_triangle_arrays (m : Mesh.t) (primary secondary type : string) :
  GiftiImage.get_arrays_from_intent NIFTI_INTENT_TRIANGLE
    (mesh_image m primary secondary type)
  = [triangles_array m].
Proof.
  destruct m as [vs ts cs ns trs segs vds]; simpl. select_arrays.
Qed.

Lemma get_vector_arrays (m : Mesh.t) (primary secondary type : string) :
  GiftiImage.get_arrays_from_intent NIFTI_INTENT_VECTOR
    (mesh_image m primary secondary type)
  = match Mesh.normals m with
    | Some n => [normals_array n]
    | None => []
    end.
Proof.
  destruct m as [vs ts cs ns trs segs vds]; simpl. select_arrays.
Qed.

Lemma get_estimate_arrays (m : Mesh.t) (primary secondary type : string) :
  GiftiImage.get_arrays_from_intent NIFTI_INTENT_ESTIMATE
    (mesh_image m primary secondary type)
  = map vertex_data_array (Mesh.vertex_data m).
Proof.
  destruct m as [vs ts cs ns trs segs vds]; simpl. select_arrays.
Qed.

(** C9: for a mesh with two or more segmentations, [save] returns without
    an exception, issues the warning about segmentations, and writes a
    container whose only label array holds the keys of the first
    segmentation (as 4-byte integers) under its name, and whose label
    table is that of the first segmentation. *)
Theorem save_several_segmentations (filename : string) (m : Mesh.t)
    (primary secondary type : string) (w : world)
    (s1 s2 : Segmentation.t) (others : list Segmentation.t) :
  Mesh.segmentations m = s1 :: s2 :: others ->
  exists (gii : GiftiImage.t) (w' : world),
    save value filename m primary secondary type w = (Return tt, w') /\
    files w' !! filename = Some gii /\
    (exists after, warnings w' = warnings w ++ segmentation_warning :: after)
    /\
    GiftiImage.get_arrays_from_intent NIFTI_INTENT_LABEL gii
    = [GiftiDataArray.init (astype_i4 (Segmentation.keys s1))
         NIFTI_INTENT_LABEL NIFTI_TYPE_INT32
         [("name", Segmentation.name s1)] None] /\
    GiftiImage.labeltable gii = map label_entry (Segmentation.labels s1).
Proof.
  intros Hsegs. eexists. eexists. split; [apply save_run|]. simpl.
  split; [apply lookup_insert_eq|].
  split; [|split].
  - unfold save_warnings. rewrite Hsegs. simpl. eauto.
  - rewrite get_arrays_stored_image, get_label_arrays, Hsegs. reflexivity.
  - simpl. now rewrite Hsegs.
Qed.

(** ** Reading back what [save] wrote *)

Lemma pointset_meta_cs (m : Mesh.t) (primary secondary type : string) :
  metadata (pointset_meta m primary secondary type) !! "cs"
  = Some (str (value (Mesh.coordinate_system m))).
Proof.
  unfold pointset_meta, metadata.
  destruct (Mesh.transforms m); simpl;
    repeat (rewrite lookup_insert_ne by done);
    apply lookup_insert_eq.
Qed.

Lemma pointset_meta_tcs (m : Mesh.t) (primary secondary type : string) :
  metadata (pointset_meta m primary secondary type) !! "tcs"
  = match Mesh.transforms m with
    | [] => None
    | t :: _ => Some (str (value (AffineTransform.transform_coord_sys t)))
    end.
Proof.
  unfold pointset_meta, metadata.
  destruct (Mesh.transforms m); simpl;
    repeat (rewrite lookup_insert_ne by done).
  - apply lookup_empty.
  - apply lookup_insert_eq.
Qed.

(** A label whose colour has an alpha channel. *)
Definition is_rgba (l : Label.t) : bool :=
  match Label.color l with
  | Color.RGBA _ _ _ _ => true
  | Color.RGB _ _ _ => false
  end.

Definition labels_rgba (s : Segmentation.t) : bool :=
  forallb (fun kl => is_rgba kl.2) (Segmentation.labels s).

(** A channel as it is read back: divided by 255, multiplied by 255 and
    rounded. *)
Definition recode (c : Z) : Z := decode_channel (encode_channel c).

(** A label with an alpha channel as it is read back. *)
Definition reloaded_label (l : Label.t) : Label.t :=
  Label.mk (Label.name l)
    match Label.color l with
    | Color.RGBA r g b a =>
        Color.RGBA (recode r) (recode g) (recode b) (recode a)
    | Color.RGB r g b => Color.RGB (recode r) (recode g) (recode b)
    end.

(** The labels of a label table written from [ls], added to [s]. *)
Definition add_reloaded_labels (ls : list (Z * Label.t)) (s : Segmentation.t)
    : Segmentation.t :=
  foldl (fun s kl => Segmentation.add_label kl.1 (reloaded_label kl.2) s)
    s ls.

Lemma has_rgba_label_entry (kl : Z * Label.t) :
  has_rgba (label_entry kl) = is_rgba kl.2.
Proof. destruct kl as [k [n [r g b|r g b a]]]; reflexivity. Qed.

Lemma for_each_label_entry (ls : list (Z * Label.t)) (s : Segmentation.t)
    (w : world) :
  forallb (fun kl => is_rgba kl.2) ls = true ->
  for_each (map label_entry ls)
    (fun label segmentation =>
       let! color := lift (decode_rgba label) in
       ret (Segmentation.add_label (GiftiLabel.key label)
              (Label.mk (GiftiLabel.label label) color) segmentation))
    s w
  = (Return (add_reloaded_labels ls s), w).
Proof.
  revert s. induction ls as [|[k l] ls IH]; intros s H; [reflexivity|].
  simpl in H. apply andb_prop in H as [Hl Hls].
  destruct l as [n [r g b|r g b a]]; [discriminate Hl|].
  simpl. erewrite bind_Return by reflexivity.
  rewrite (IH _ Hls). reflexivity.
Qed.

Lemma for_each_label_entry_rgb (ls : list (Z * Label.t)) (s : Segmentation.t)
    (w : world) :
  forallb (fun kl => is_rgba kl.2) ls = false ->
  for_each (map label_entry ls)
    (fun label segmentation =>
       let! color := lift (decode_rgba label) in
       ret (Segmentation.add_label (GiftiLabel.key label)
              (Label.mk (GiftiLabel.label label) color) segmentation))
    s w
  = (Raise none_times_int, w).
Proof.
  intros H.
  destruct (for_each_label (map label_entry ls) s w) as (r & Hr & Hcase).
  rewrite Hr.
  assert (E : forallb has_rgba (map label_entry ls) = false).
  { rewrite <- H. clear. induction ls as [|kl ls IH]; [reflexivity|].
    simpl. now rewrite has_rgba_label_entry, IH. }
  rewrite E in Hcase. now subst r.
Qed.

Lemma _create_segmentation_from_gii_run (gii : GiftiImage.t)
    (a : GiftiDataArray.t) (name : string) (ls : list (Z * Label.t))
    (w : world) :
  GiftiImage.get_arrays_from_intent NIFTI_INTENT_LABEL gii = [a] ->
  metadata (GiftiDataArray.meta a) !! "name" = Some name ->
  GiftiImage.labeltable gii = map label_entry ls ->
  _create_segmentation_from_gii gii w
  = (if forallb (fun kl => is_rgba kl.2) ls
     then Return (Some (add_reloaded_labels ls
                          (Segmentation.init name (GiftiDataArray.data a))))
     else Raise none_times_int, w).
Proof.
  intros Ha Hname Htable. unfold _create_segmentation_from_gii.
  rewrite Ha, Hname, Htable.
  erewrite bind_Return by reflexivity.
  erewrite bind_Return by reflexivity.
  destruct (forallb (fun kl => is_rgba kl.2) ls) eqn:E.
  - erewrite bind_Return by (apply for_each_label_entry; exact E).
    reflexivity.
  - erewrite bind_Raise by (apply for_each_label_entry_rgb; exact E).
    reflexivity.
Qed.

Lemma _create_segmentation_from_gii_none (gii : GiftiImage.t) (w : world) :
  GiftiImage.get_arrays_from_intent NIFTI_INTENT_LABEL gii = [] ->
  _create_segmentation_from_gii gii w = (Return None, w).
Proof.
  intros Ha. unfold _create_segmentation_from_gii. now rewrite Ha.
Qed.

(** The segmentation read back from what was written for [s]. *)
Definition reloaded_segmentation (s : Segmentation.t) : Segmentation.t :=
  add_reloaded_labels (Segmentation.labels s)
    (Segmentation.init (Segmentation.name s)
       (astype_i4 (Segmentation.keys s))).

(** The colour of a label has four channels, integers from 0 to 255. *)
Definition rgba_in_range (l : Label.t) : Prop :=
  match Label.color l with
  | Color.RGBA r g b a =>
      0 <= r <= 255 /\ 0 <= g <= 255 /\ 0 <= b <= 255 /\ 0 <= a <= 255
  | Color.RGB _ _ _ => False
  end.

Lemma reloaded_label_in_range (l : Label.t) :
  rgba_in_range l -> reloaded_label l = l.
Proof.
  destruct l as [n [r g b|r g b a]]; unfold rgba_in_range, reloaded_label;
    simpl; [intros []|].
  intros (Hr & Hg & Hb & Ha). unfold recode.
  now rewrite !decode_encode_channel by assumption.
Qed.

Lemma rgba_in_range_is_rgba (ls : list (Z * Label.t)) :
  Forall (fun kl => rgba_in_range kl.2) ls ->
  forallb (fun kl => is_rgba kl.2) ls = true.
Proof.
  induction 1 as [|[k [n [r g b|r g b a]]] ls H _ IH];
    [reflexivity|destruct H|exact IH].
Qed.

Lemma dict_set_fresh {V} (k : Z) (v : V) (d : list (Z * V)) :
  k ∉ d.*1 -> dict_set k v d = d ++ [(k, v)].
Proof.
  induction d as [|[k' v'] d IH]; intros Hk; [reflexivity|].
  simpl in *. apply not_elem_of_cons in Hk as [Hne Hk].
  rewrite decide_False by congruence. now rewrite IH.
Qed.

Lemma add_reloaded_labels_labels (ls : list (Z * Label.t))
    (s : Segmentation.t) :
  NoDup ((Segmentation.labels s).*1 ++ ls.*1) ->
  Forall (fun kl => rgba_in_range kl.2) ls ->
  add_reloaded_labels ls s
  = Segmentation.mk (Segmentation.name s) (Segmentation.keys s)
      (Segmentation.labels s ++ ls).
Proof.
  revert s. induction ls as [|[k l] ls IH]; intros s Hnd Hcol.
  - simpl. rewrite app_nil_r. now destruct s.
  - simpl. inversion Hcol as [|? ? Hl Hls]; subst. simpl in Hl.
    rewrite reloaded_label_in_range by assumption.
    simpl in Hnd.
    assert (Hk : k ∉ (Segmentation.labels s).*1).
    { apply NoDup_app in Hnd as (_ & Hd & _). intros Hin.
      apply (Hd _ Hin). left. }
    rewrite IH.
    + unfold Segmentation.add_label. simpl.
      rewrite dict_set_fresh by assumption. now rewrite <- app_assoc.
    + unfold Segmentation.add_label. simpl.
      rewrite dict_set_fresh by assumption.
      rewrite fmap_app. simpl. now rewrite <- app_assoc.
    + assumption.
Qed.

(** Distinct members of the enumeration have distinct values, as in
    every Python [Enum]. *)
Hypothesis value_inj : forall a b, value a = value b -> a = b.

Lemma CoordinateSystem_of_value_value (c : CoordinateSystem) :
  CoordinateSystem_of_value value (value c) = Return c.
Proof.
  unfold CoordinateSystem_of_value, CoordinateSystem_members.
  destruct c; simpl;
    repeat (rewrite bool_decide_eq_false_2
              by (intros E; apply value_inj in E; discriminate E));
    rewrite bool_decide_eq_true_2 by reflexivity; reflexivity.
Qed.

Definition reloaded_vertex_data (v : VertexData.t) : VertexData.t :=
  VertexData.mk (VertexData.name v) (astype_f4 (VertexData.data v)).

(** The mesh [load] builds from what [save] wrote for [m]. *)
Definition reloaded_mesh (m : Mesh.t) : Mesh.t :=
  Mesh.mk (astype_f4 (Mesh.vertices m)) (astype_i4 (Mesh.triangles m))
    (Mesh.coordinate_system m)
    (option_map astype_f4 (Mesh.normals m))
    (match Mesh.transforms m with
     | [] => []
     | t :: _ => [t]
     end)
    (match Mesh.segmentations m with
     | [] => []
     | s :: _ => [reloaded_segmentation s]
     end)
    (map reloaded_vertex_data (Mesh.vertex_data m)).

Lemma foldl_add_vertex_data_mesh (vs : list VertexData.t) (m : Mesh.t) :
  foldl (fun mesh vertex_data => Mesh.add_vertex_data vertex_data mesh) m vs
  = Mesh.mk (Mesh.vertices m) (Mesh.triangles m) (Mesh.coordinate_system m)
      (Mesh.normals m) (Mesh.transforms m) (Mesh.segmentations m)
      (Mesh.vertex_data m ++ vs).
Proof.
  revert m. induction vs as [|v vs IH]; intros m.
  - simpl. rewrite app_nil_r. now destruct m.
  - simpl. rewrite IH. simpl. now rewrite <- app_assoc.
Qed.

Lemma transform_of_saved (m : Mesh.t) (primary secondary type : string) :
  _get_transform_from_vertex_array value
    (stored_array (vertices_array m primary secondary type))
  = Return (match Mesh.transforms m with
            | [] => None
            | t :: _ => Some t
            end).
Proof.
  unfold _get_transform_from_vertex_array. simpl.
  rewrite pointset_meta_tcs. unfold pointset_coordsys.
  destruct (Mesh.transforms m) as [|[tcs aff] trs]; simpl.
  - reflexivity.
  - rewrite int_str. simpl. now rewrite CoordinateSystem_of_value_value.
Qed.

Lemma segmentation_of_saved (m : Mesh.t) (primary secondary type : string)
    (w : world) :
  _create_segmentation_from_gii
    (stored_image (mesh_image m primary secondary type)) w
  = (match Mesh.segmentations m with
     | [] => Return None
     | s :: _ =>
         if labels_rgba s then Return (Some (reloaded_segmentation s))
         else Raise none_times_int
     end, w).
Proof.
  destruct (Mesh.segmentations m) as [|s segs] eqn:E.
  - apply _create_segmentation_from_gii_none.
    now rewrite get_arrays_stored_image, get_label_arrays, E.
  - apply _create_segmentation_from_gii_run
      with (a := stored_array (label_array s))
           (name := Segmentation.name s) (ls := Segmentation.labels s).
    + now rewrite get_arrays_stored_image, get_label_arrays, E.
    + reflexivity.
    + simpl. now rewrite E.
Qed.

Lemma named_vertex_data_stored (v : VertexData.t) :
  named_vertex_data (stored_array (vertex_data_array v))
  = Some (reloaded_vertex_data v).
Proof.
  unfold named_vertex_data, metadata. simpl.
  rewrite lookup_insert_eq. unfold reloaded_vertex_data.
  now rewrite astype_f4_idem.
Qed.

Lemma nameless_warning_stored (v : VertexData.t) :
  nameless_warning (stored_array (vertex_data_array v)) = None.
Proof.
  unfold nameless_warning, metadata. simpl. now rewrite lookup_insert_eq.
Qed.

Lemma vertex_data_of_saved (m : Mesh.t) (primary secondary type : string)
    (w : world) :
  _get_vertex_data_from_gii
    (stored_image (mesh_image m primary secondary type)) w
  = (Return (map reloaded_vertex_data (Mesh.vertex_data m)), w).
Proof.
  rewrite _get_vertex_data_from_gii_run.
  rewrite get_arrays_stored_image, get_estimate_arrays.
  assert (H1 : omap named_vertex_data
                 (map stored_array
                    (map vertex_data_array (Mesh.vertex_data m)))
               = map reloaded_vertex_data (Mesh.vertex_data m)).
  { induction (Mesh.vertex_data m) as [|v vs IH]; [reflexivity|].
    cbn [map omap list_omap]. rewrite named_vertex_data_stored.
    now rewrite IH. }
  assert (H2 : omap nameless_warning
                 (map stored_array
                    (map vertex_data_array (Mesh.vertex_data m)))
               = []).
  { clear H1. induction (Mesh.vertex_data m) as [|v vs IH]; [reflexivity|].
    cbn [map omap list_omap]. rewrite nameless_warning_stored.
    exact IH. }
  rewrite H1, H2, app_nil_r. now destruct w.
Qed.

(** Whether the label table written for a mesh can be decoded: the
    labels of its first segmentation, if any, all have an alpha channel. *)
Definition readable (m : Mesh.t) : bool :=
  match Mesh.segmentations m with
  | [] => true
  | s :: _ => labels_rgba s
  end.

Lemma load_saved (filename : string) (m : Mesh.t)
    (primary secondary type : string) (w : world) :
  files w !! filename
  = Some (stored_image (mesh_image m primary secondary type)) ->
  load value filename w
  = (if readable m then Return (reloaded_mesh m) else Raise none_times_int,
     w).
Proof.
  intros Hfile. unfold load.
  erewrite bind_Return by (unfold nib_load; rewrite Hfile; reflexivity).
  cbv zeta.
  rewrite !get_arrays_stored_image, get_pointset_arrays,
    get_triangle_arrays, get_vector_arrays.
  erewrite bind_Return by reflexivity.
  erewrite bind_Return.
  2:{ unfold lift. simpl. rewrite pointset_meta_cs, int_str. simpl.
      rewrite CoordinateSystem_of_value_value. reflexivity. }
  erewrite bind_Return by reflexivity.
  erewrite (bind_Return _ _ _
              (option_map astype_f4 (Mesh.normals m))) by
    (destruct (Mesh.normals m); simpl; rewrite ?astype_f4_idem; reflexivity).
  erewrite bind_Return
    by (unfold lift; rewrite transform_of_saved; reflexivity).
  unfold readable.
  destruct (Mesh.segmentations m) as [|s segs] eqn:Es.
  - erewrite bind_Return
      by (rewrite segmentation_of_saved, Es; reflexivity).
    erewrite bind_Return by apply vertex_data_of_saved.
    unfold ret. f_equal. f_equal.
    rewrite foldl_add_vertex_data_mesh. unfold reloaded_mesh.
    simpl. rewrite astype_f4_idem, astype_i4_idem, Es.
    destruct (Mesh.transforms m); reflexivity.
  - destruct (labels_rgba s) eqn:Ergba.
    + erewrite bind_Return
        by (rewrite segmentation_of_saved, Es, Ergba; reflexivity).
      erewrite bind_Return by apply vertex_data_of_saved.
      unfold ret. f_equal. f_equal.
      rewrite foldl_add_vertex_data_mesh. unfold reloaded_mesh.
      simpl. rewrite astype_f4_idem, astype_i4_idem, Es.
      destruct (Mesh.transforms m); reflexivity.
    + erewrite bind_Raise
        by (rewrite segmentation_of_saved, Es, Ergba; reflexivity).
      reflexivity.
Qed.

(** C2, amended: for a mesh of coordinate system X whose single transform
    targets X, [save] writes a point set array with equal source and
    target codes and with the value of X under the ['tcs'] key; on that
    array the decision function returns a transform of target X, not "no
    transform", because it reads the key before it compares the codes.
    Loading the file therefore never gives a mesh without a transform. *)
Theorem save_keeps_transform_to_own_frame (filename : string) (m : Mesh.t)
    (primary secondary type : string) (w : world) (t : AffineTransform.t) :
  Mesh.transforms m = [t] ->
  AffineTransform.transform_coord_sys t = Mesh.coordinate_system m ->
  exists (gii : GiftiImage.t) (w' : world) (vertex_array : GiftiDataArray.t),
    save value filename m primary secondary type w = (Return tt, w') /\
    files w' !! filename = Some gii /\
    GiftiImage.get_arrays_from_intent NIFTI_INTENT_POINTSET gii
    = [vertex_array] /\
    metadata (GiftiDataArray.meta vertex_array) !! "tcs"
    = Some (str (value (Mesh.coordinate_system m))) /\
    GiftiCoordSystem.dataspace (GiftiDataArray.coordsys vertex_array)
    = GiftiCoordSystem.xformspace (GiftiDataArray.coordsys vertex_array) /\
    _get_transform_from_vertex_array value vertex_array
    = Return (Some (AffineTransform.mk (Mesh.coordinate_system m)
                      (GiftiCoordSystem.xform
                         (GiftiDataArray.coordsys vertex_array)))) /\
    forall m' w'',
      load value filename w' = (Return m', w'') -> Mesh.transforms m' <> [].
Proof.
  intros Ht Hcs. eexists. eexists. eexists.
  split; [apply save_run|]. cbn [files].
  split; [apply lookup_insert_eq|].
  split.
  { rewrite get_arrays_stored_image, get_pointset_arrays. reflexivity. }
  split.
  { simpl. rewrite pointset_meta_tcs, Ht. now rewrite Hcs. }
  split.
  { simpl. unfold pointset_coordsys. rewrite Ht. simpl. now rewrite Hcs. }
  split.
  { rewrite transform_of_saved, Ht. simpl.
    unfold pointset_coordsys. rewrite Ht. simpl.
    destruct t as [tcs aff]. simpl in *. now rewrite Hcs. }
  intros m' w'' Hload.
  erewrite load_saved in Hload by apply lookup_insert_eq.
  destruct (readable m); [|discriminate Hload].
  injection Hload as <- _. simpl. rewrite Ht. discriminate.
Qed.

End SaveLoad.

(** ** An assignment of values to the members *)

(** One way to number the members of the enumeration, for the examples. *)
Definition example_value (c : CoordinateSystem) : Z :=
  match c with
  | UNKNOWN => 0
  | SCANNER => 1
  | RAS => 2
  | LPS => 3
  | VOXEL => 4
  | MNI => 5
  | TALAIRACH => 6
  end.

Lemma example_value_inj (a b : CoordinateSystem) :
  example_value a = example_value b -> a = b.
Proof. destruct a, b; simpl; intros H; first [reflexivity | discriminate H]. Defined.

(** A triangle in the RAS frame. *)
Definition example_mesh : Mesh.t :=
  Mesh.init
    (float_array false [3%nat; 3%nat]
       (map float64_of_int [0; 0; 0; 1; 0; 0; 0; 1; 0]))
    (int_array false [1%nat; 3%nat] [0; 1; 2])
    RAS None.

(** The same triangle with a transform whose target is its own frame. *)
Definition example_mesh_with_transform : Mesh.t :=
  Mesh.mk (Mesh.vertices example_mesh) (Mesh.triangles example_mesh) RAS None
    [AffineTransform.mk RAS GiftiCoordSystem.identity] [] [].

Definition no_files : world := World ∅ [].

(** A segmentation of the three vertices with a colour of three
    channels, and the triangle with that segmentation. *)
Definition rgb_lobes : Segmentation.t :=
  Segmentation.mk "lobes" (int_array false [3%nat] [1; 1; 1])
    [(1, Label.mk "frontal" (Color.RGB 255 128 0))].

Definition example_mesh_with_rgb_label : Mesh.t :=
  Mesh.add_segmentation rgb_lobes example_mesh.

(** C1, at a mesh on which the code fails: the triangle (three vertices,
    one triangle, no transform) with a segmentation whose label has the
    colour (255, 128, 0).  [save] writes the file, and [load] raises
    [TypeError] on it instead of returning the mesh. *)
Theorem save_load_fails_on_rgb_label :
  exists w',
    save example_value "mesh.surf.gii" example_mesh_with_rgb_label
      default_primary default_secondary default_geometric_type no_files
    = (Return tt, w') /\
    load example_value "mesh.surf.gii" w'
    = (Raise (TypeError
                "unsupported operand type(s) for *: 'NoneType' and 'int'"),
       w').
Proof.
  eexists. split; [apply save_run|].
  erewrite (load_saved example_value example_value_inj)
    by apply lookup_insert_eq.
  reflexivity.
Qed.

(** C2, as stated, fails: for a mesh in the RAS frame with a transform
    that targets RAS, the decision function finds a transform of target
    RAS in the file [save] writes, and loading the file does not give a
    mesh with zero transforms. *)
Lemma identity_transform_is_not_elided :
  let saved :=
    save example_value "mesh.surf.gii" example_mesh_with_transform
      default_primary default_secondary default_geometric_type no_files in
  (exists gii vertex_array,
     files saved.2 !! "mesh.surf.gii" = Some gii /\
     GiftiImage.get_arrays_from_intent NIFTI_INTENT_POINTSET gii
     = [vertex_array] /\
     _get_transform_from_vertex_array example_value vertex_array
     = Return (Some (AffineTransform.mk RAS GiftiCoordSystem.identity))) /\
  ~ (exists m' w',
       load example_value "mesh.surf.gii" saved.2 = (Return m', w') /\
       Mesh.transforms m' = []).
Proof.
  cbv zeta. rewrite save_run. cbn [snd files]. split.
  - eexists. eexists. split; [apply lookup_insert_eq|].
    split.
    + rewrite get_arrays_stored_image, get_pointset_arrays. reflexivity.
    + vm_compute. reflexivity.
  - intros (m' & w' & H1 & H2).
    erewrite (load_saved example_value example_value_inj) in H1
      by apply lookup_insert_eq.
    injection H1 as <- _. discriminate H2.
Qed.

Lemma save_keeps_transform_to_own_frame_witness :
  exists (gii : GiftiImage.t) (w' : world) (vertex_array : GiftiDataArray.t),
    save example_value "mesh.surf.gii" example_mesh_with_transform
      default_primary default_secondary default_geometric_type no_files
    = (Return tt, w') /\
    files w' !! "mesh.surf.gii" = Some gii /\
    GiftiImage.get_arrays_from_intent NIFTI_INTENT_POINTSET gii
    = [vertex_array] /\
    metadata (GiftiDataArray.meta vertex_array) !! "tcs"
    = Some (str (example_value RAS)) /\
    GiftiCoordSystem.dataspace (GiftiDataArray.coordsys vertex_array)
    = GiftiCoordSystem.xformspace (GiftiDataArray.coordsys vertex_array) /\
    _get_transform_from_vertex_array example_value vertex_array
    = Return (Some (AffineTransform.mk RAS
                      (GiftiCoordSystem.xform
                         (GiftiDataArray.coordsys vertex_array)))) /\
    forall m' w'',
      load example_value "mesh.surf.gii" w' = (Return m', w'') ->
      Mesh.transforms m' <> [].
Proof.
  apply (save_keeps_transform_to_own_frame example_value example_value_inj
           "mesh.surf.gii" example_mesh_with_transform
           default_primary default_secondary default_geometric_type
           no_files (AffineTransform.mk RAS GiftiCoordSystem.identity));
    reflexivity.
Defined.

(** ** The transform of a point set array *)

Section Load.

Variable value : CoordinateSystem -> Z.

(** C6: the decision function reads the ['tcs'] key first: when the key is
    there, the transform has the coordinate system the key denotes and
    the embedded matrix; without the key, when the two codes of the
    embedded record differ, the transform has the coordinate system the
    registry gives for the target code and the embedded matrix; without
    the key and with equal codes there is no transform. *)
Theorem transform_decision_rules (vertex_array : GiftiDataArray.t) :
  let md := metadata (GiftiDataArray.meta vertex_array) in
  let record := GiftiDataArray.coordsys vertex_array in
  (forall tcs v cs,
     md !! "tcs" = Some tcs ->
     int tcs = Return v ->
     CoordinateSystem_of_value value v = Return cs ->
     _get_transform_from_vertex_array value vertex_array
     = Return (Some (AffineTransform.mk cs (GiftiCoordSystem.xform record))))
  /\
  (forall cs,
     md !! "tcs" = None ->
     GiftiCoordSystem.dataspace record <> GiftiCoordSystem.xformspace record ->
     _convert_nifti_code_to_coord_sys (GiftiCoordSystem.xformspace record)
     = Return cs ->
     _get_transform_from_vertex_array value vertex_array
     = Return (Some (AffineTransform.mk cs (GiftiCoordSystem.xform record))))
  /\
  (md !! "tcs" = None ->
   GiftiCoordSystem.dataspace record = GiftiCoordSystem.xformspace record ->
   _get_transform_from_vertex_array value vertex_array = Return None).
Proof.
  cbv zeta. unfold _get_transform_from_vertex_array. repeat split.
  - intros tcs v cs -> Hv Hcs. rewrite Hv. simpl. now rewrite Hcs.
  - intros cs -> Hne Hcs. rewrite bool_decide_eq_true_2 by exact Hne.
    now rewrite Hcs.
  - intros -> Heq. rewrite bool_decide_eq_false_2; [reflexivity|].
    intros Hne. now apply Hne.
Qed.

(** ** Loading a container *)

(** The coordinate system [load] gives the mesh of a point set array: the
    one the ['cs'] key denotes, or else the one of the embedded code. *)
Definition coordinate_system_of (vertex_array : GiftiDataArray.t)
    : result CoordinateSystem :=
  match metadata (GiftiDataArray.meta vertex_array) !! "cs" with
  | Some cs => let? v := int cs in CoordinateSystem_of_value value v
  | None =>
      _convert_nifti_code_to_coord_sys
        (GiftiCoordSystem.dataspace (GiftiDataArray.coordsys vertex_array))
  end.

Definition no_vertex_data (filename : string) : exn :=
  ValueError (format "The file " " does not contain any vertex data." filename).

Definition no_triangles (filename : string) : exn :=
  ValueError (format "The file " " does not contain any triangles." filename).

Lemma load_no_pointset (filename : string) (gii : GiftiImage.t) (w : world) :
  files w !! filename = Some gii ->
  GiftiImage.get_arrays_from_intent NIFTI_INTENT_POINTSET gii = [] ->
  load value filename w = (Raise (no_vertex_data filename), w).
Proof.
  intros Hfile Hps. unfold load.
  erewrite bind_Return by (unfold nib_load; rewrite Hfile; reflexivity).
  cbv zeta. rewrite Hps. reflexivity.
Qed.

Lemma load_no_coordinate_system (filename : string) (gii : GiftiImage.t)
    (w : world) va others e :
  files w !! filename = Some gii ->
  GiftiImage.get_arrays_from_intent NIFTI_INTENT_POINTSET gii = va :: others ->
  coordinate_system_of va = Raise e ->
  exists w', load value filename w = (Raise e, w').
Proof.
  intros Hfile Hps Hcs. unfold load.
  erewrite bind_Return by (unfold nib_load; rewrite Hfile; reflexivity).
  cbv zeta. rewrite Hps.
  destruct others as [|va' others].
  - erewrite bind_Return by reflexivity.
    erewrite bind_Raise by (unfold lift; fold (coordinate_system_of va);
                            rewrite Hcs; reflexivity).
    eauto.
  - erewrite bind_Return by (erewrite bind_Return by reflexivity; reflexivity).
    erewrite bind_Raise by (unfold lift; fold (coordinate_system_of va);
                            rewrite Hcs; reflexivity).
    eauto.
Qed.

Lemma load_no_triangle (filename : string) (gii : GiftiImage.t)
    (w : world) va others cs :
  files w !! filename = Some gii ->
  GiftiImage.get_arrays_from_intent NIFTI_INTENT_POINTSET gii = va :: others ->
  coordinate_system_of va = Return cs ->
  GiftiImage.get_arrays_from_intent NIFTI_INTENT_TRIANGLE gii = [] ->
  exists w', load value filename w = (Raise (no_triangles filename), w').
Proof.
  intros Hfile Hps Hcs Htr. unfold load.
  erewrite bind_Return by (unfold nib_load; rewrite Hfile; reflexivity).
  cbv zeta. rewrite Hps, Htr.
  destruct others as [|va' others].
  - erewrite bind_Return by reflexivity.
    erewrite bind_Return by (unfold lift; fold (coordinate_system_of va);
                             rewrite Hcs; reflexivity).
    eexists. reflexivity.
  - erewrite bind_Return by (erewrite bind_Return by reflexivity; reflexivity).
    erewrite bind_Return by (unfold lift; fold (coordinate_system_of va);
                             rewrite Hcs; reflexivity).
    eexists. reflexivity.
Qed.

(** C5, amended: for a container without a triangle array, [load] always
    fails.  With no point set array either, the error is the one about
    missing vertex data; with a point set array whose coordinate system
    can be read, the error is [ValueError] naming the file and the missing
    triangles. *)
Theorem load_without_triangles (filename : string) (gii : GiftiImage.t)
    (w : world) :
  files w !! filename = Some gii ->
  GiftiImage.get_arrays_from_intent NIFTI_INTENT_TRIANGLE gii = [] ->
  (exists e w', load value filename w = (Raise e, w')) /\
  (GiftiImage.get_arrays_from_intent NIFTI_INTENT_POINTSET gii = [] ->
   load value filename w = (Raise (no_vertex_data filename), w)) /\
  (forall va others cs,
     GiftiImage.get_arrays_from_intent NIFTI_INTENT_POINTSET gii
     = va :: others ->
     coordinate_system_of va = Return cs ->
     exists w', load value filename w = (Raise (no_triangles filename), w')).
Proof.
  intros Hfile Htr. split; [|split].
  - destruct (GiftiImage.get_arrays_from_intent NIFTI_INTENT_POINTSET gii)
      as [|va others] eqn:Hps.
    + eexists. eexists. now apply load_no_pointset with (gii := gii).
    + destruct (coordinate_system_of va) as [cs|e] eqn:Hcs.
      * destruct (load_no_triangle filename gii w va others cs) as [w' H];
          eauto.
      * destruct (load_no_coordinate_system filename gii w va others e)
          as [w' H]; eauto.
  - intros Hps. now apply load_no_pointset with (gii := gii).
  - intros va others cs Hps Hcs.
    now apply load_no_triangle with (gii := gii) (va := va)
                                    (others := others) (cs := cs).
Qed.

Lemma bind_inv {A B} (m : M A) (k : A -> M B) w b w' :
  bind m k w = (Return b, w') ->
  exists a w1, m w = (Return a, w1) /\ k a w1 = (Return b, w').
Proof.
  unfold bind. destruct (m w) as [[a|e] w1]; [eauto|discriminate].
Qed.

Lemma attached_coordinate_system (m : Mesh.t) (t : option AffineTransform.t)
    (s : option Segmentation.t) (vs : list VertexData.t) :
  Mesh.coordinate_system
    (foldl (fun mesh vertex_data => Mesh.add_vertex_data vertex_data mesh)
       match s with
       | Some segmentation =>
           Mesh.add_segmentation segmentation
             match t with
             | Some transform => Mesh.add_transform transform m
             | None => m
             end
       | None =>
           match t with
           | Some transform => Mesh.add_transform transform m
           | None => m
           end
       end vs)
  = Mesh.coordinate_system m.
Proof.
  rewrite foldl_add_vertex_data_mesh. now destruct s, t.
Qed.

(** The coordinate system of a loaded mesh is the one read from the first
    point set array. *)
Lemma load_coordinate_system (filename : string) (gii : GiftiImage.t)
    (w w' : world) va others (m : Mesh.t) :
  files w !! filename = Some gii ->
  GiftiImage.get_arrays_from_intent NIFTI_INTENT_POINTSET gii = va :: others ->
  load value filename w = (Return m, w') ->
  coordinate_system_of va = Return (Mesh.coordinate_system m).
Proof.
  intros Hfile Hps. unfold load.
  erewrite bind_Return by (unfold nib_load; rewrite Hfile; reflexivity).
  cbv zeta. rewrite Hps. intros H.
  apply bind_inv in H as (va0 & w1 & H1 & H).
  assert (va0 = va) as ->.
  { destruct others; unfold bind, warn, ret in H1; simpl in H1; congruence. }
  apply bind_inv in H as (cs & w2 & H2 & H).
  unfold lift in H2. fold (coordinate_system_of va) in H2.
  injection H2 as H2 _. rewrite H2.
  apply bind_inv in H as (ta & w3 & _ & H).
  apply bind_inv in H as (ns & w4 & _ & H).
  apply bind_inv in H as (t & w5 & _ & H).
  apply bind_inv in H as (sg & w6 & _ & H).
  apply bind_inv in H as (vs & w7 & _ & H).
  unfold ret in H. injection H as <- _.
  now rewrite attached_coordinate_system.
Qed.

(** C7: when the first point set array of a container has no ['cs'] key
    and its embedded code for the data space is 2, a mesh that [load]
    returns has the coordinate system UNKNOWN; and [load] does return a
    mesh when the container has a triangle array, the transform of the
    point set array can be read and the segmentation, if any, can be
    read. *)
Theorem load_code_2_without_cs (filename : string) (gii : GiftiImage.t)
    (w : world) (vertex_array : GiftiDataArray.t)
    (others : list GiftiDataArray.t) :
  files w !! filename = Some gii ->
  GiftiImage.get_arrays_from_intent NIFTI_INTENT_POINTSET gii
  = vertex_array :: others ->
  metadata (GiftiDataArray.meta vertex_array) !! "cs" = None ->
  GiftiCoordSystem.dataspace (GiftiDataArray.coordsys vertex_array) = 2 ->
  (forall m w',
     load value filename w = (Return m, w') ->
     Mesh.coordinate_system m = UNKNOWN) /\
  (GiftiImage.get_arrays_from_intent NIFTI_INTENT_TRIANGLE gii <> [] ->
   (exists t,
      _get_transform_from_vertex_array value vertex_array = Return t) ->
   succeeds (_create_segmentation_from_gii gii) ->
   exists m w',
     load value filename w = (Return m, w') /\
     Mesh.coordinate_system m = UNKNOWN).
Proof.
  intros Hfile Hps Hcs Hcode.
  assert (Hof : coordinate_system_of vertex_array = Return UNKNOWN).
  { unfold coordinate_system_of. now rewrite Hcs, Hcode. }
  assert (Hm : forall m w', load value filename w = (Return m, w') ->
                            Mesh.coordinate_system m = UNKNOWN).
  { intros m w' Hload.
    pose proof (load_coordinate_system _ _ _ _ _ _ _ Hfile Hps Hload) as E.
    rewrite Hof in E. now injection E as <-. }
  split; [exact Hm|].
  intros Htr [t Ht] Hseg.
  enough (exists m w', load value filename w = (Return m, w'))
    as (m & w' & Hload) by (exists m, w'; split; [exact Hload|]; eauto).
  unfold load.
  erewrite bind_Return by (unfold nib_load; rewrite Hfile; reflexivity).
  cbv zeta. rewrite Hps.
  destruct (GiftiImage.get_arrays_from_intent NIFTI_INTENT_TRIANGLE gii)
    as [|ta [|ta' tas]]; [congruence| |];
    destruct (GiftiImage.get_arrays_from_intent NIFTI_INTENT_VECTOR gii)
      as [|na [|na' nas]];
    destruct others as [|va' others];
    (first [ erewrite bind_Return by reflexivity
           | erewrite bind_Return
               by (erewrite bind_Return by reflexivity; reflexivity) ]);
    (erewrite bind_Return
       by (unfold lift; fold (coordinate_system_of vertex_array);
           rewrite Hof; reflexivity));
    (first [ erewrite bind_Return by reflexivity
           | erewrite bind_Return
               by (erewrite bind_Return by reflexivity; reflexivity) ]);
    (first [ erewrite bind_Return by reflexivity
           | erewrite bind_Return
               by (erewrite bind_Return by reflexivity; reflexivity) ]);
    (erewrite bind_Return by (unfold lift; rewrite Ht; reflexivity));
    (edestruct Hseg as (sg & w2 & Hsg); erewrite bind_Return by exact Hsg);
    (erewrite bind_Return by apply _get_vertex_data_from_gii_run);
    eexists; eexists; reflexivity.
Qed.

End Load.

(** ** Examples of containers *)

(** A point set array alone, with the embedded code 2 and no ['cs'] key. *)
Definition aligned_points : GiftiDataArray.t :=
  GiftiDataArray.init
    (float_array true [3%nat; 3%nat]
       (map float32_of_int [0; 0; 0; 1; 0; 0; 0; 1; 0]))
    NIFTI_INTENT_POINTSET NIFTI_TYPE_FLOAT32 []
    (Some (GiftiCoordSystem.mk 2 2 GiftiCoordSystem.identity)).

Definition one_triangle : GiftiDataArray.t :=
  GiftiDataArray.init (int_array true [1%nat; 3%nat] [0; 1; 2])
    NIFTI_INTENT_TRIANGLE NIFTI_TYPE_INT32 [] None.

Definition points_only : GiftiImage.t :=
  GiftiImage.mk [aligned_points] [] [].

Definition aligned_surface : GiftiImage.t :=
  GiftiImage.mk [aligned_points; one_triangle] [] [].

(** C5, as stated, fails: a container with no array at all has no triangle
    array, and [load] fails with the error about missing vertex data, which
    does not name the triangles. *)
Lemma load_empty_container :
  let w := World {["empty.gii" := GiftiImage.empty]} [] in
  GiftiImage.get_arrays_from_intent NIFTI_INTENT_TRIANGLE GiftiImage.empty
  = [] /\
  load example_value "empty.gii" w
  = (Raise (ValueError
              "The file empty.gii does not contain any vertex data."), w) /\
  (load example_value "empty.gii" w).1
  <> Raise (ValueError "The file empty.gii does not contain any triangles.").
Proof.
  cbv zeta. split; [reflexivity|].
  assert (E : load example_value "empty.gii"
                (World {["empty.gii" := GiftiImage.empty]} [])
              = (Raise (ValueError
                   "The file empty.gii does not contain any vertex data."),
                 World {["empty.gii" := GiftiImage.empty]} []))
    by (vm_compute; reflexivity).
  rewrite E. split; [reflexivity|]. simpl. discriminate.
Qed.

Lemma load_without_triangles_witness :
  exists w',
    load example_value "points.gii" (World {["points.gii" := points_only]} [])
    = (Raise (ValueError
                "The file points.gii does not contain any triangles."), w').
Proof.
  destruct (load_without_triangles example_value "points.gii" points_only
              (World {["points.gii" := points_only]} []))
    as (_ & _ & H); [vm_compute; reflexivity | reflexivity |].
  apply (H aligned_points [] UNKNOWN); reflexivity.
Defined.

(** Point set arrays for each rule of the decision function. *)
Definition points_with_key : GiftiDataArray.t :=
  GiftiDataArray.init (float_array true [0%nat; 3%nat] [])
    NIFTI_INTENT_POINTSET NIFTI_TYPE_FLOAT32 [("tcs", "5")]
    (Some (GiftiCoordSystem.mk 2 2 GiftiCoordSystem.identity)).

Definition points_with_codes : GiftiDataArray.t :=
  GiftiDataArray.init (float_array true [0%nat; 3%nat] [])
    NIFTI_INTENT_POINTSET NIFTI_TYPE_FLOAT32 []
    (Some (GiftiCoordSystem.mk 1 4 GiftiCoordSystem.identity)).

Lemma transform_decision_rules_witness :
  _get_transform_from_vertex_array example_value points_with_key
  = Return (Some (AffineTransform.mk MNI GiftiCoordSystem.identity)) /\
  _get_transform_from_vertex_array example_value points_with_codes
  = Return (Some (AffineTransform.mk MNI GiftiCoordSystem.identity)) /\
  _get_transform_from_vertex_array example_value aligned_points
  = Return None.
Proof.
  split; [|split].
  - apply (proj1 (transform_decision_rules example_value points_with_key)
             "5" 5 MNI); reflexivity.
  - apply (proj1 (proj2 (transform_decision_rules example_value
                           points_with_codes)) MNI);
      [reflexivity | discriminate | reflexivity].
  - apply (proj2 (proj2 (transform_decision_rules example_value
                           aligned_points))); reflexivity.
Defined.

Lemma load_code_2_without_cs_witness :
  exists m w',
    load example_value "aligned.surf.gii"
      (World {["aligned.surf.gii" := aligned_surface]} [])
    = (Return m, w') /\
    Mesh.coordinate_system m = UNKNOWN.
Proof.
  destruct (load_code_2_without_cs example_value "aligned.surf.gii"
              aligned_surface
              (World {["aligned.surf.gii" := aligned_surface]} [])
              aligned_points [])
    as [_ H];
    [vm_compute; reflexivity | reflexivity | reflexivity | reflexivity |].
  apply H.
  - discriminate.
  - exists None. reflexivity.
  - intros w. exists None, w. reflexivity.
Defined.

(** ** Segmentations *)

(** Two segmentations of the three vertices of [example_mesh]. *)
Definition lobes : Segmentation.t :=
  Segmentation.mk "lobes" (int_array false [3%nat] [1; 1; 2])
    [(1, Label.mk "frontal" (Color.RGBA 255 128 0 255));
     (2, Label.mk "parietal" (Color.RGBA 0 0 255 255))].

Definition hemispheres : Segmentation.t :=
  Segmentation.mk "hemispheres" (int_array false [3%nat] [7; 7; 7])
    [(7, Label.mk "left" (Color.RGBA 10 20 30 255))].

Definition example_mesh_with_segmentations : Mesh.t :=
  Mesh.add_segmentation hemispheres
    (Mesh.add_segmentation lobes example_mesh).

Lemma save_several_segmentations_witness :
  exists (gii : GiftiImage.t) (w' : world),
    save example_value "mesh.surf.gii" example_mesh_with_segmentations
      default_primary default_secondary default_geometric_type no_files
    = (Return tt, w') /\
    files w' !! "mesh.surf.gii" = Some gii /\
    (exists after,
       warnings w' = warnings no_files ++ segmentation_warning :: after) /\
    GiftiImage.get_arrays_from_intent NIFTI_INTENT_LABEL gii
    = [GiftiDataArray.init (astype_i4 (Segmentation.keys lobes))
         NIFTI_INTENT_LABEL NIFTI_TYPE_INT32
         [("name", Segmentation.name lobes)] None] /\
    GiftiImage.labeltable gii = map label_entry (Segmentation.labels lobes).
Proof.
  apply (save_several_segmentations example_value "mesh.surf.gii"
           example_mesh_with_segmentations
           default_primary default_secondary default_geometric_type
           no_files lobes hemispheres []).
  reflexivity.
Defined.

(** The container [save_segmentation] builds for a segmentation. *)
Definition segmentation_image (s : Segmentation.t)
    (primary secondary type : string) : GiftiImage.t :=
  GiftiImage.mk [label_array s] (map label_entry (Segmentation.labels s))
    [("AnatomicalStructurePrimary", primary);
     ("AnatomicalStructureSecondary", secondary);
     ("GeometricType", type)].

Lemma save_segmentation_run (filename : string) (s : Segmentation.t)
    (primary secondary type : string) (w : world) :
  save_segmentation filename s primary secondary type w
  = (Return tt,
     World (<[filename :=
                stored_image (segmentation_image s primary secondary type)]>
              (files w))
           (warnings w)).
Proof. reflexivity. Qed.

Lemma load_saved_segmentation (filename : string) (s : Segmentation.t)
    (primary secondary type : string) (w : world) :
  files w !! filename
  = Some (stored_image (segmentation_image s primary secondary type)) ->
  load_segmentation filename w
  = (if labels_rgba s then Return (reloaded_segmentation s)
     else Raise none_times_int, w).
Proof.
  intros Hfile. unfold load_segmentation.
  erewrite bind_Return by (unfold nib_load; rewrite Hfile; reflexivity).
  unfold bind at 1.
  rewrite (_create_segmentation_from_gii_run _
             (stored_array (label_array s)) (Segmentation.name s)
             (Segmentation.labels s)) by reflexivity.
  unfold labels_rgba.
  destruct (forallb (fun kl => is_rgba kl.2) (Segmentation.labels s));
    reflexivity.
Qed.

Lemma astype_i4_in_range (narrow : bool) (shape : list nat) (zs : list Z) :
  Forall in_int32 zs ->
  astype_i4 (int_array narrow shape zs) = int_array true shape zs.
Proof.
  intros H. destruct narrow; [reflexivity|]. simpl. f_equal.
  induction H as [|z zs Hz _ IH]; [reflexivity|].
  simpl. now rewrite int32_of_int_small, IH.
Qed.

(** C10, at a segmentation on which the code fails: three vertices with
    key 1 and the label "frontal" of colour (255, 128, 0).
    [save_segmentation] writes the file, and [load_segmentation] raises
    [TypeError] on it instead of returning the segmentation: the label
    was written without an alpha channel, and the decoder multiplies all
    four channels by 255. *)
Theorem save_load_segmentation_fails_on_rgb_label :
  exists w',
    save_segmentation "lobes.label.gii" rgb_lobes
      default_primary default_secondary default_geometric_type no_files
    = (Return tt, w') /\
    load_segmentation "lobes.label.gii" w'
    = (Raise (TypeError
                "unsupported operand type(s) for *: 'NoneType' and 'int'"),
       w').
Proof.
  eexists. split; [apply save_segmentation_run|].
  erewrite load_saved_segmentation by apply lookup_insert_eq.
  reflexivity.
Qed.

(* ===================================================================== *)
(** * Further properties of the module *)
(* ===================================================================== *)

(** ** Per vertex data files *)

(** The container [save_vertex_data] builds. *)
Definition vertex_data_image (v : VertexData.t) : GiftiImage.t :=
  GiftiImage.add_gifti_data_array (vertex_data_array v) GiftiImage.empty.

Lemma save_vertex_data_run (filename : string) (v : VertexData.t)
    (w : world) :
  save_vertex_data filename v w
  = (Return tt,
     World (<[filename := stored_image (vertex_data_image v)]> (files w))
           (warnings w ++ cast_warnings f4 (VertexData.data v))).
Proof.
  unfold save_vertex_data. cbv zeta.
  erewrite bind_Return by apply _add_vertex_data_to_gii_run.
  reflexivity.
Qed.

Lemma load_saved_vertex_data (filename : string) (v : VertexData.t)
    (w : world) :
  files w !! filename = Some (stored_image (vertex_data_image v)) ->
  load_vertex_data filename w = (Return (reloaded_vertex_data v), w).
Proof.
  intros Hfile. unfold load_vertex_data.
  erewrite bind_Return by (unfold nib_load; rewrite Hfile; reflexivity).
  erewrite bind_Return by apply _get_vertex_data_from_gii_run.
  change (GiftiImage.get_arrays_from_intent NIFTI_INTENT_ESTIMATE
            (stored_image (vertex_data_image v)))
    with [stored_array (vertex_data_array v)].
  cbn [omap list_omap]. rewrite named_vertex_data_stored.
  rewrite nameless_warning_stored. simpl. rewrite app_nil_r.
  now destruct w.
Qed.

(** X1: per vertex data saved with [save_vertex_data] and loaded with
    [load_vertex_data] comes back under its name with its values narrowed
    to 4-byte floats, and only the named file is written.  The narrowing
    is numpy's cast: when a finite value is too large for a 4-byte float
    the cast issues its overflow warning, and that is the only warning of
    the two calls; without such a value no warning is issued. *)
Theorem save_load_vertex_data_round_trip (filename : string)
    (vertex_data : VertexData.t) (w : world) :
  exists w',
    (let! _ := save_vertex_data filename vertex_data in
     load_vertex_data filename) w
    = (Return (VertexData.mk (VertexData.name vertex_data)
                 (astype_f4 (VertexData.data vertex_data))), w') /\
    warnings w'
    = warnings w ++
      (if overflow_in_cast (VertexData.data vertex_data)
       then [Warning RuntimeWarning "overflow encountered in cast"]
       else []) /\
    GiftiImage.darrays <$> files w' !! filename
    = Some [GiftiDataArray.init (astype_f4 (VertexData.data vertex_data))
              NIFTI_INTENT_ESTIMATE NIFTI_TYPE_FLOAT32
              [("name", VertexData.name vertex_data)] None].
Proof.
  eexists. split; [|split].
  - erewrite bind_Return by apply save_vertex_data_run.
    apply load_saved_vertex_data. apply lookup_insert_eq.
  - reflexivity.
  - cbn [snd files]. rewrite lookup_insert_eq.
    cbn -[astype_f4]. unfold stored_array, GiftiDataArray.init.
    cbn -[astype_f4]. now rewrite astype_f4_idem.
Qed.

(** ** The registry, both ways *)

Lemma from_code_outside_table (code : Z) :
  (0 <=? code) && (code <=? 4) = false ->
  _convert_nifti_code_to_coord_sys code = Raise (KeyError (str code)).
Proof.
  intros E. unfold _convert_nifti_code_to_coord_sys, getitem. simpl.
  apply andb_false_iff in E.
  repeat (case_decide; [exfalso; subst; simpl in E;
                        destruct E; discriminate|]).
  reflexivity.
Qed.

(** X2: encoding a coordinate system and decoding the code gives it back
    for UNKNOWN, SCANNER, TALAIRACH and MNI only; RAS, LPS and VOXEL come
    back as UNKNOWN.  Decoding a code and encoding the result gives the
    code back for 0, 1, 3 and 4; code 2 comes back as 0, and a code outside
    the table raises [KeyError]. *)
Theorem registry_round_trips :
  (forall c : CoordinateSystem,
     (let? code := _convert_coord_sys_to_nifti_code c in
      _convert_nifti_code_to_coord_sys code)
     = Return match c with
              | RAS | LPS | VOXEL => UNKNOWN
              | _ => c
              end) /\
  (forall code : Z,
     (let? c := _convert_nifti_code_to_coord_sys code in
      _convert_coord_sys_to_nifti_code c)
     = if (0 <=? code) && (code <=? 4)
       then Return (if code =? 2 then 0 else code)
       else Raise (KeyError (str code))).
Proof.
  split.
  - intros []; reflexivity.
  - intros code.
    destruct ((0 <=? code) && (code <=? 4)) eqn:E.
    + apply andb_prop in E as [E1 E2].
      apply Z.leb_le in E1. apply Z.leb_le in E2.
      assert (code = 0 \/ code = 1 \/ code = 2 \/ code = 3 \/ code = 4)
        as [-> | [-> | [-> | [-> | ->]]]] by lia; reflexivity.
    + now rewrite from_code_outside_table.
Qed.

(** ** What loading leaves alone *)

(** A computation that writes no file and only adds warnings. *)
Definition read_only {A} (m : M A) : Prop :=
  forall w,
    files (m w).2 = files w /\
    exists issued, warnings (m w).2 = warnings w ++ issued.

Lemma read_only_ret {A} (a : A) : read_only (ret a).
Proof. intros w. split; [reflexivity|]. exists []. simpl. now rewrite app_nil_r. Qed.

Lemma read_only_raise {A} (e : exn) : read_only (@raise A e).
Proof. intros w. split; [reflexivity|]. exists []. simpl. now rewrite app_nil_r. Qed.

Lemma read_only_lift {A} (r : result A) : read_only (lift r).
Proof. intros w. split; [reflexivity|]. exists []. simpl. now rewrite app_nil_r. Qed.

Lemma read_only_warn (c : category) (msg : string) : read_only (warn c msg).
Proof. intros w. split; [reflexivity|]. eexists. reflexivity. Qed.

Lemma read_only_nib_load (filename : string) : read_only (nib_load filename).
Proof.
  intros w. unfold nib_load. destruct (files w !! filename); simpl;
    (split; [reflexivity|]); exists []; now rewrite app_nil_r.
Qed.

Lemma read_only_bind {A B} (m : M A) (k : A -> M B) :
  read_only m -> (forall a, read_only (k a)) -> read_only (bind m k).
Proof.
  intros Hm Hk w. unfold bind.
  destruct (Hm w) as [Hf [ws Hw]].
  destruct (m w) as [[a|e] w1]; simpl in *.
  - destruct (Hk a w1) as [Hf' [ws' Hw']].
    split; [congruence|]. exists (ws ++ ws').
    rewrite Hw', Hw. now rewrite app_assoc.
  - split; [assumption|]. eauto.
Qed.

Lemma read_only_for_each {A S} (xs : list A) (body : A -> S -> M S) (s : S) :
  (forall x s', read_only (body x s')) -> read_only (for_each xs body s).
Proof.
  intros Hbody. revert s. induction xs as [|x xs IH]; intros s; simpl.
  - apply read_only_ret.
  - apply read_only_bind; [apply Hbody|]. intros s'. apply IH.
Qed.

Ltac read_only_step :=
  first
    [ apply read_only_ret
    | apply read_only_raise
    | apply read_only_lift
    | apply read_only_warn
    | apply read_only_nib_load
    | apply read_only_for_each; intros
    | apply read_only_bind; [|intros]
    | progress cbv zeta
    | match goal with
      | |- read_only (match ?x with _ => _ end) => destruct x
      end ].

Lemma read_only_create_segmentation (gii : GiftiImage.t) :
  read_only (_create_segmentation_from_gii gii).
Proof. unfold _create_segmentation_from_gii. repeat read_only_step. Qed.

Lemma read_only_get_vertex_data (gii : GiftiImage.t) :
  read_only (_get_vertex_data_from_gii gii).
Proof. unfold _get_vertex_data_from_gii. repeat read_only_step. Qed.

(** X3: whatever the files hold and whether they return or raise, [load],
    [load_segmentation] and [load_vertex_data] write no file and remove
    no warning: the warnings afterwards are the earlier ones followed by
    those the call issued. *)
Theorem loading_is_read_only (value : CoordinateSystem -> Z)
    (filename : string) (w : world) :
  (files (load value filename w).2 = files w /\
   exists issued,
     warnings (load value filename w).2 = warnings w ++ issued) /\
  (files (load_segmentation filename w).2 = files w /\
   exists issued,
     warnings (load_segmentation filename w).2 = warnings w ++ issued) /\
  (files (load_vertex_data filename w).2 = files w /\
   exists issued,
     warnings (load_vertex_data filename w).2 = warnings w ++ issued).
Proof.
  split; [|split].
  - revert w. change (read_only (load value filename)). unfold load.
    repeat first [ apply read_only_create_segmentation
                 | apply read_only_get_vertex_data
                 | read_only_step ].
  - revert w. change (read_only (load_segmentation filename)).
    unfold load_segmentation.
    repeat first [ apply read_only_create_segmentation | read_only_step ].
  - revert w. change (read_only (load_vertex_data filename)).
    unfold load_vertex_data.
    repeat first [ apply read_only_get_vertex_data | read_only_step ].
Qed.

(** ** Reading a segmentation *)

(** X4: the outcomes of [load_segmentation] on a file.  Without a label
    array it raises [ValueError] naming the file; when the first label
    array has no ['name'] in its metadata it raises [KeyError]; when an
    entry of the label table lacks a colour channel it raises [TypeError];
    otherwise it returns a segmentation with the name and the data of the
    first label array. *)
Theorem load_segmentation_outcomes (filename : string) (gii : GiftiImage.t)
    (w : world) :
  files w !! filename = Some gii ->
  exists w',
    match GiftiImage.get_arrays_from_intent NIFTI_INTENT_LABEL gii with
    | [] =>
        load_segmentation filename w
        = (Raise (ValueError
                    (format "The file "
                       " does not contain any segmentation data." filename)),
           w')
    | label_array :: _ =>
        match metadata (GiftiDataArray.meta label_array) !! "name" with
        | None =>
            load_segmentation filename w = (Raise (KeyError "'name'"), w')
        | Some name =>
            if forallb has_rgba (GiftiImage.labeltable gii)
            then exists s,
                   load_segmentation filename w = (Return s, w') /\
                   Segmentation.name s = name /\
                   Segmentation.keys s = GiftiDataArray.data label_array
            else load_segmentation filename w = (Raise none_times_int, w')
        end
    end.
Proof.
  intros Hfile. unfold load_segmentation.
  erewrite bind_Return by (unfold nib_load; rewrite Hfile; reflexivity).
  unfold _create_segmentation_from_gii.
  destruct (GiftiImage.get_arrays_from_intent NIFTI_INTENT_LABEL gii)
    as [|a others].
  - eexists. reflexivity.
  - set (w1 := match others with
               | [] => w
               | _ :: _ =>
                   World (files w)
                     (warnings w ++
                      [Warning RuntimeWarning
                         ("The file contains more than one label array. The "
                          +:+ "first one was used. Proceed with caution.")])
               end).
    exists w1.
    destruct (metadata (GiftiDataArray.meta a) !! "name") as [n|] eqn:Hn.
    + destruct (for_each_label (GiftiImage.labeltable gii)
                  (Segmentation.init n (GiftiDataArray.data a)) w1)
        as (r & Hr & H).
      destruct (forallb has_rgba (GiftiImage.labeltable gii)).
      * destruct H as (s' & -> & Hname & Hkeys). exists s'.
        split; [|split; assumption].
        destruct others; unfold bind, ret, warn, lift; simpl;
          fold w1; unfold bind, ret, lift in Hr; rewrite Hr; reflexivity.
      * subst r.
        destruct others; unfold bind, ret, warn, lift; simpl;
          fold w1; unfold bind, ret, lift in Hr; rewrite Hr; reflexivity.
    + destruct others; reflexivity.
Qed.

(** A label array without a name. *)
Definition nameless_labels : GiftiImage.t :=
  GiftiImage.mk
    [GiftiDataArray.init (int_array true [3%nat] [1; 1; 2])
       NIFTI_INTENT_LABEL NIFTI_TYPE_INT32 [] None]
    [] [].

Lemma load_segmentation_outcomes_witness :
  exists w',
    load_segmentation "labels.label.gii"
      (World {["labels.label.gii" := nameless_labels]} [])
    = (Raise (KeyError "'name'"), w').
Proof.
  destruct (load_segmentation_outcomes "labels.label.gii" nameless_labels
              (World {["labels.label.gii" := nameless_labels]} []))
    as [w' H]; [vm_compute; reflexivity|].
  exists w'. exact H.
Defined.

(** ** Collecting per vertex data *)

(** X5: [_get_vertex_data_from_gii] never raises and writes no file.  It
    returns one item per estimate array that has a ['name'], in container
    order and under that name, and issues one warning per estimate array
    that has none. *)
Theorem vertex_data_filtering (gii : GiftiImage.t) (w : world) :
  let arrays := GiftiImage.get_arrays_from_intent NIFTI_INTENT_ESTIMATE gii in
  exists (l : list VertexData.t) (issued : list warning),
    _get_vertex_data_from_gii gii w
    = (Return l, World (files w) (warnings w ++ issued)) /\
    map VertexData.name l
    = omap (fun a => metadata (GiftiDataArray.meta a) !! "name") arrays /\
    (length l + length issued = length arrays)%nat /\
    Forall (fun x =>
              x = Warning UserWarning
                    ("The file contains a vertex data array without " +:+
                     "a name. It was ignored."))
           issued.
Proof.
  cbv zeta. eexists. eexists.
  split; [apply _get_vertex_data_from_gii_run|].
  generalize (GiftiImage.get_arrays_from_intent NIFTI_INTENT_ESTIMATE gii).
  intros arrays. induction arrays as [|a arrays (IH1 & IH2 & IH3)].
  - repeat split. constructor.
  - cbn [omap list_omap].
    destruct (metadata (GiftiDataArray.meta a) !! "name") as [n|] eqn:E.
    + assert (E1 : named_vertex_data a
                   = Some (VertexData.mk n (GiftiDataArray.data a)))
        by (unfold named_vertex_data; now rewrite E).
      assert (E2 : nameless_warning a = None)
        by (unfold nameless_warning; now rewrite E).
      rewrite E1, E2. repeat split.
      * simpl. now rewrite <- IH1.
      * simpl. now rewrite IH2.
      * exact IH3.
    + assert (E1 : named_vertex_data a = None)
        by (unfold named_vertex_data; now rewrite E).
      assert (E2 : nameless_warning a
                   = Some (Warning UserWarning
                             ("The file contains a vertex data array without "
                              +:+ "a name. It was ignored.")))
        by (unfold nameless_warning; now rewrite E).
      rewrite E1, E2. repeat split.
      * exact IH1.
      * simpl. rewrite <- IH2. lia.
      * constructor; [reflexivity|exact IH3].
Qed.

(** ** Saving a mesh *)

Section Saving.

Variable value : CoordinateSystem -> Z.

(** X6: [save] never raises, whatever the mesh: it writes the named file
    and leaves every other file as it was. *)
Theorem save_writes_one_file (filename other : string) (mesh : Mesh.t)
    (primary secondary type : string) (w : world) :
  other <> filename ->
  exists w',
    save value filename mesh primary secondary type w = (Return tt, w') /\
    is_Some (files w' !! filename) /\
    files w' !! other = files w !! other.
Proof.
  intros Hne. eexists. split; [apply save_run|]. simpl. split.
  - rewrite lookup_insert_eq. eauto.
  - now rewrite lookup_insert_ne.
Qed.

(** X7: for a mesh with two or more transforms, [save] returns without
    an exception, issues the warning about transforms (after the warning
    about segmentations, if the mesh has several, and before whatever the
    casts of the arrays issue), and builds a point set array that carries
    the first transform only: its matrix, the codes of the coordinate
    system of the mesh and of the target of that transform, and the value
    of that target under the ['tcs'] key. *)
Theorem save_several_transforms (filename : string) (m : Mesh.t)
    (primary secondary type : string) (w : world)
    (t1 t2 : AffineTransform.t) (others : list AffineTransform.t) :
  Mesh.transforms m = t1 :: t2 :: others ->
  exists (gii : GiftiImage.t) (w' : world) (vertex_array : GiftiDataArray.t),
    save value filename m primary secondary type w = (Return tt, w') /\
    files w' !! filename = Some gii /\
    (exists after,
       warnings w'
       = warnings w ++
         match Mesh.segmentations m with
         | _ :: _ :: _ => [segmentation_warning]
         | _ => []
         end ++ transform_warning :: after) /\
    GiftiImage.get_arrays_from_intent NIFTI_INTENT_POINTSET gii
    = [vertex_array] /\
    metadata (GiftiDataArray.meta vertex_array) !! "tcs"
    = Some (str (value (AffineTransform.transform_coord_sys t1))) /\
    GiftiCoordSystem.xform (GiftiDataArray.coordsys vertex_array)
    = AffineTransform.affine t1 /\
    _convert_coord_sys_to_nifti_code (Mesh.coordinate_system m)
    = Return (GiftiCoordSystem.dataspace
                (GiftiDataArray.coordsys vertex_array)) /\
    _convert_coord_sys_to_nifti_code (AffineTransform.transform_coord_sys t1)
    = Return (GiftiCoordSystem.xformspace
                (GiftiDataArray.coordsys vertex_array)).
Proof.
  intros Htrs. eexists. eexists. eexists.
  split; [apply save_run|]. simpl.
  split; [apply lookup_insert_eq|].
  split.
  { unfold save_warnings. rewrite Htrs. eexists. reflexivity. }
  split.
  { rewrite get_arrays_stored_image, get_pointset_arrays. reflexivity. }
  split.
  { simpl. rewrite pointset_meta_tcs. now rewrite Htrs. }
  simpl. unfold pointset_coordsys. rewrite Htrs. simpl.
  rewrite !to_code_nifti_code. repeat split.
Qed.

(** X8: for a mesh without a transform, [save] writes a point set array
    with the embedded codes 0 and 0 and the identity matrix, whatever the
    coordinate system of the mesh, and without a ['tcs'] key: only the
    ['cs'] key tells the coordinate system. *)
Theorem save_without_transform (filename : string) (m : Mesh.t)
    (primary secondary type : string) (w : world) :
  Mesh.transforms m = [] ->
  exists (gii : GiftiImage.t) (w' : world) (vertex_array : GiftiDataArray.t),
    save value filename m primary secondary type w = (Return tt, w') /\
    files w' !! filename = Some gii /\
    GiftiImage.get_arrays_from_intent NIFTI_INTENT_POINTSET gii
    = [vertex_array] /\
    GiftiDataArray.coordsys vertex_array
    = GiftiCoordSystem.mk 0 0 GiftiCoordSystem.identity /\
    metadata (GiftiDataArray.meta vertex_array) !! "tcs" = None /\
    metadata (GiftiDataArray.meta vertex_array) !! "cs"
    = Some (str (value (Mesh.coordinate_system m))).
Proof.
  intros Htrs. eexists. eexists. eexists.
  split; [apply save_run|]. simpl.
  split; [apply lookup_insert_eq|].
  split.
  { rewrite get_arrays_stored_image, get_pointset_arrays. reflexivity. }
  split.
  { simpl. unfold pointset_coordsys. now rewrite Htrs. }
  split.
  { simpl. rewrite pointset_meta_tcs. now rewrite Htrs. }
  simpl. apply pointset_meta_cs.
Qed.

End Saving.

Lemma save_writes_one_file_witness :
  exists w',
    save example_value "mesh.surf.gii" example_mesh
      default_primary default_secondary default_geometric_type no_files
    = (Return tt, w') /\
    is_Some (files w' !! "mesh.surf.gii") /\
    files w' !! "other.gii" = files no_files !! "other.gii".
Proof.
  apply (save_writes_one_file example_value "mesh.surf.gii" "other.gii").
  discriminate.
Defined.

(** The triangle with a transform to LPS and one to MNI. *)
Definition example_mesh_two_transforms : Mesh.t :=
  Mesh.add_transform (AffineTransform.mk MNI GiftiCoordSystem.identity)
    (Mesh.add_transform (AffineTransform.mk LPS GiftiCoordSystem.identity)
       example_mesh).

Lemma save_several_transforms_witness :
  exists (gii : GiftiImage.t) (w' : world) (vertex_array : GiftiDataArray.t),
    save example_value "mesh.surf.gii" example_mesh_two_transforms
      default_primary default_secondary default_geometric_type no_files
    = (Return tt, w') /\
    files w' !! "mesh.surf.gii" = Some gii /\
    (exists after,
       warnings w'
       = warnings no_files ++
         match Mesh.segmentations example_mesh_two_transforms with
         | _ :: _ :: _ => [segmentation_warning]
         | _ => []
         end ++ transform_warning :: after) /\
    GiftiImage.get_arrays_from_intent NIFTI_INTENT_POINTSET gii
    = [vertex_array] /\
    metadata (GiftiDataArray.meta vertex_array) !! "tcs"
    = Some (str (example_value LPS)) /\
    GiftiCoordSystem.xform (GiftiDataArray.coordsys vertex_array)
    = GiftiCoordSystem.identity /\
    _convert_coord_sys_to_nifti_code RAS
    = Return (GiftiCoordSystem.dataspace
                (GiftiDataArray.coordsys vertex_array)) /\
    _convert_coord_sys_to_nifti_code LPS
    = Return (GiftiCoordSystem.xformspace
                (GiftiDataArray.coordsys vertex_array)).
Proof.
  apply (save_several_transforms example_value "mesh.surf.gii"
           example_mesh_two_transforms
           default_primary default_secondary default_geometric_type no_files
           (AffineTransform.mk LPS GiftiCoordSystem.identity)
           (AffineTransform.mk MNI GiftiCoordSystem.identity) []).
  reflexivity.
Defined.

Lemma save_without_transform_witness :
  exists (gii : GiftiImage.t) (w' : world) (vertex_array : GiftiDataArray.t),
    save example_value "mesh.surf.gii" example_mesh
      default_primary default_secondary default_geometric_type no_files
    = (Return tt, w') /\
    files w' !! "mesh.surf.gii" = Some gii /\
    GiftiImage.get_arrays_from_intent NIFTI_INTENT_POINTSET gii
    = [vertex_array] /\
    GiftiDataArray.coordsys vertex_array
    = GiftiCoordSystem.mk 0 0 GiftiCoordSystem.identity /\
    metadata (GiftiDataArray.meta vertex_array) !! "tcs" = None /\
    metadata (GiftiDataArray.meta vertex_array) !! "cs"
    = Some (str (example_value RAS)).
Proof.
  apply (save_without_transform example_value "mesh.surf.gii" example_mesh
           default_primary default_secondary default_geometric_type no_files).
  reflexivity.
Defined.

(** ** Saving a mesh and loading it again *)

(** A mesh with normals, per vertex data and the two segmentations. *)
Definition example_mesh_with_attachments : Mesh.t :=
  Mesh.mk (Mesh.vertices example_mesh) (Mesh.triangles example_mesh) RAS
    (Some (float_array false [3%nat; 3%nat]
             (map float64_of_int [0; 0; 1; 0; 0; 1; 0; 0; 1])))
    [AffineTransform.mk MNI GiftiCoordSystem.identity]
    [lobes; hemispheres]
    [VertexData.mk "thickness"
       (float_array false [3%nat] (map float64_of_int [2; 3; 4]));
     VertexData.mk "curvature"
       (float_array false [3%nat] (map float64_of_int [0; 1; 0]))].

Section Reloading.

Variable value : CoordinateSystem -> Z.
Hypothesis value_inj : forall a b, value a = value b -> a = b.

(** X9: of the transforms of a mesh, [save] writes the first one only.
    In the point set array it writes, the decision function finds a
    transform with the very target coordinate system of that first
    transform, also when the registry has no code of its own for it (RAS,
    LPS, VOXEL), and no transform when the mesh has none.  A mesh that
    [load] returns from the file has a transform to that target and no
    other.  Only targets are stated, nothing about the matrix. *)
Theorem save_load_first_transform (filename : string) (m : Mesh.t)
    (primary secondary type : string) (w : world) :
  exists (gii : GiftiImage.t) (w' : world) (vertex_array : GiftiDataArray.t)
         (t : option AffineTransform.t),
    save value filename m primary secondary type w = (Return tt, w') /\
    files w' !! filename = Some gii /\
    GiftiImage.get_arrays_from_intent NIFTI_INTENT_POINTSET gii
    = [vertex_array] /\
    _get_transform_from_vertex_array value vertex_array = Return t /\
    AffineTransform.transform_coord_sys <$> t
    = head (map AffineTransform.transform_coord_sys (Mesh.transforms m)) /\
    forall m' w'',
      load value filename w' = (Return m', w'') ->
      map AffineTransform.transform_coord_sys (Mesh.transforms m')
      = take 1 (map AffineTransform.transform_coord_sys (Mesh.transforms m)).
Proof.
  eexists. eexists. eexists. eexists.
  split; [apply save_run|]. cbn [files].
  split; [apply lookup_insert_eq|].
  split.
  { rewrite get_arrays_stored_image, get_pointset_arrays. reflexivity. }
  split; [now apply transform_of_saved|].
  split; [now destruct (Mesh.transforms m)|].
  intros m' w'' Hload.
  erewrite load_saved in Hload by (try exact value_inj; apply lookup_insert_eq).
  destruct (readable m); [|discriminate Hload].
  injection Hload as <- _. simpl. now destruct (Mesh.transforms m).
Qed.

(** X10: whenever [load] returns a mesh from the file [save] wrote for a
    mesh, the normals and all the per vertex data of the saved mesh come
    back, the per vertex data in order and under their names, all narrowed
    to 4-byte floats; of its segmentations at most one comes back. *)
Theorem save_load_attachments (filename : string) (m : Mesh.t)
    (primary secondary type : string) (w : world) :
  exists w',
    save value filename m primary secondary type w = (Return tt, w') /\
    forall m' w'',
      load value filename w' = (Return m', w'') ->
      Mesh.normals m' = astype_f4 <$> Mesh.normals m /\
      Mesh.vertex_data m'
      = map (fun v => VertexData.mk (VertexData.name v)
                        (astype_f4 (VertexData.data v)))
          (Mesh.vertex_data m) /\
      length (Mesh.segmentations m')
      = Nat.min 1 (length (Mesh.segmentations m)).
Proof.
  eexists. split; [apply save_run|].
  intros m' w'' Hload.
  erewrite load_saved in Hload by (try exact value_inj; apply lookup_insert_eq).
  destruct (readable m); [|discriminate Hload].
  injection Hload as <- _.
  simpl. repeat split. now destruct (Mesh.segmentations m).
Qed.

(** X11: whenever [load] returns a mesh from the file [save] wrote for a
    mesh, the first segmentation of the saved mesh comes back with its
    name, its keys and its labels, when the keys fit 4-byte integers, no
    key has two labels and every colour has four channels, integers from
    0 to 255. *)
Theorem save_load_first_segmentation (filename : string) (m : Mesh.t)
    (primary secondary type : string) (w : world)
    (s : Segmentation.t) (others : list Segmentation.t)
    (narrow : bool) (shape : list nat) (zs : list Z) :
  Mesh.segmentations m = s :: others ->
  Segmentation.keys s = int_array narrow shape zs ->
  Forall in_int32 zs ->
  NoDup (Segmentation.labels s).*1 ->
  Forall (fun kl => rgba_in_range kl.2) (Segmentation.labels s) ->
  exists w',
    save value filename m primary secondary type w = (Return tt, w') /\
    forall m' w'',
      load value filename w' = (Return m', w'') ->
      Mesh.segmentations m'
      = [Segmentation.mk (Segmentation.name s) (int_array true shape zs)
           (Segmentation.labels s)].
Proof.
  intros Hsegs Hkeys Hzs Hnd Hcol.
  eexists. split; [apply save_run|].
  intros m' w'' Hload.
  erewrite load_saved in Hload by (try exact value_inj; apply lookup_insert_eq).
  destruct (readable m); [|discriminate Hload].
  injection Hload as <- _.
  simpl. rewrite Hsegs. unfold reloaded_segmentation.
  rewrite add_reloaded_labels_labels by assumption.
  simpl. rewrite Hkeys. now rewrite astype_i4_in_range.
Qed.

(** X22: whenever [load] returns a mesh from the file [save] wrote for a
    mesh, it has the vertices of the saved mesh narrowed to 4-byte floats,
    its triangles narrowed to 4-byte integers and its coordinate system,
    whatever the coordinate system is; and [load] then leaves the files
    and the warnings as they were. *)
Theorem save_load_geometry (filename : string) (m : Mesh.t)
    (primary secondary type : string) (w : world) :
  exists w',
    save value filename m primary secondary type w = (Return tt, w') /\
    forall m' w'',
      load value filename w' = (Return m', w'') ->
      Mesh.vertices m' = astype_f4 (Mesh.vertices m) /\
      Mesh.triangles m' = astype_i4 (Mesh.triangles m) /\
      Mesh.coordinate_system m' = Mesh.coordinate_system m /\
      w'' = w'.
Proof.
  eexists. split; [apply save_run|].
  intros m' w'' Hload.
  erewrite load_saved in Hload by (try exact value_inj; apply lookup_insert_eq).
  destruct (readable m); [|discriminate Hload].
  injection Hload as <- <-. repeat split.
Qed.

End Reloading.

Lemma save_load_first_transform_witness :
  exists (gii : GiftiImage.t) (w' : world) (vertex_array : GiftiDataArray.t)
         (t : option AffineTransform.t),
    save example_value "mesh.surf.gii" example_mesh_two_transforms
      default_primary default_secondary default_geometric_type no_files
    = (Return tt, w') /\
    files w' !! "mesh.surf.gii" = Some gii /\
    GiftiImage.get_arrays_from_intent NIFTI_INTENT_POINTSET gii
    = [vertex_array] /\
    _get_transform_from_vertex_array example_value vertex_array = Return t /\
    AffineTransform.transform_coord_sys <$> t = Some LPS /\
    exists m',
      load example_value "mesh.surf.gii" w' = (Return m', w') /\
      map AffineTransform.transform_coord_sys (Mesh.transforms m') = [LPS].
Proof.
  destruct (save_load_first_transform example_value example_value_inj
              "mesh.surf.gii" example_mesh_two_transforms
              default_primary default_secondary default_geometric_type
              no_files)
    as (gii & w' & vertex_array & t & Hsave & Hfile & Harr & Ht & Hcs & Hload).
  exists gii, w', vertex_array, t.
  repeat (split; [assumption|]).
  rewrite save_run in Hsave. injection Hsave as <-.
  eexists. split.
  - erewrite (load_saved example_value example_value_inj)
      by apply lookup_insert_eq.
    reflexivity.
  - reflexivity.
Defined.

Lemma save_load_attachments_witness :
  exists w' m',
    save example_value "mesh.surf.gii" example_mesh_with_attachments
      default_primary default_secondary default_geometric_type no_files
    = (Return tt, w') /\
    load example_value "mesh.surf.gii" w' = (Return m', w') /\
    Mesh.normals m'
    = astype_f4 <$> Mesh.normals example_mesh_with_attachments /\
    Mesh.vertex_data m'
    = map (fun v => VertexData.mk (VertexData.name v)
                      (astype_f4 (VertexData.data v)))
        (Mesh.vertex_data example_mesh_with_attachments) /\
    length (Mesh.segmentations m') = 1%nat.
Proof.
  destruct (save_load_attachments example_value example_value_inj
              "mesh.surf.gii" example_mesh_with_attachments
              default_primary default_secondary default_geometric_type
              no_files)
    as (w' & Hsave & Hload).
  exists w'.
  assert (E : load example_value "mesh.surf.gii" w'
              = (Return (reloaded_mesh example_mesh_with_attachments), w')).
  { rewrite save_run in Hsave. injection Hsave as <-.
    erewrite (load_saved example_value example_value_inj)
      by apply lookup_insert_eq.
    reflexivity. }
  eexists. split; [exact Hsave|]. split; [exact E|].
  exact (Hload _ _ E).
Defined.

Lemma save_load_first_segmentation_witness :
  exists w' m',
    save example_value "mesh.surf.gii" example_mesh_with_segmentations
      default_primary default_secondary default_geometric_type no_files
    = (Return tt, w') /\
    load example_value "mesh.surf.gii" w' = (Return m', w') /\
    Mesh.segmentations m'
    = [Segmentation.mk "lobes" (int_array true [3%nat] [1; 1; 2])
         (Segmentation.labels lobes)].
Proof.
  destruct (save_load_first_segmentation example_value example_value_inj
              "mesh.surf.gii" example_mesh_with_segmentations
              default_primary default_secondary default_geometric_type
              no_files lobes [hemispheres] false [3%nat] [1; 1; 2])
    as (w' & Hsave & Hload).
  - reflexivity.
  - reflexivity.
  - repeat constructor; unfold in_int32; simpl; lia.
  - simpl. apply NoDup_cons. split.
    + intros H. apply list_elem_of_singleton in H. discriminate H.
    + apply NoDup_singleton.
  - repeat constructor; unfold rgba_in_range; simpl; lia.
  - exists w'.
    assert (E : load example_value "mesh.surf.gii" w'
                = (Return (reloaded_mesh example_mesh_with_segmentations),
                   w')).
    { rewrite save_run in Hsave. injection Hsave as <-.
      erewrite (load_saved example_value example_value_inj)
        by apply lookup_insert_eq.
      reflexivity. }
    eexists. split; [exact Hsave|]. split; [exact E|].
    exact (Hload _ _ E).
Defined.

Lemma save_load_geometry_witness :
  exists w' m',
    save example_value "mesh.surf.gii" example_mesh_with_attachments
      default_primary default_secondary default_geometric_type no_files
    = (Return tt, w') /\
    load example_value "mesh.surf.gii" w' = (Return m', w') /\
    Mesh.vertices m' = astype_f4 (Mesh.vertices example_mesh_with_attachments)
    /\
    Mesh.triangles m'
    = astype_i4 (Mesh.triangles example_mesh_with_attachments) /\
    Mesh.coordinate_system m' = RAS.
Proof.
  destruct (save_load_geometry example_value example_value_inj
              "mesh.surf.gii" example_mesh_with_attachments
              default_primary default_secondary default_geometric_type
              no_files)
    as (w' & Hsave & Hload).
  exists w'.
  assert (E : load example_value "mesh.surf.gii" w'
              = (Return (reloaded_mesh example_mesh_with_attachments), w')).
  { rewrite save_run in Hsave. injection Hsave as <-.
    erewrite (load_saved example_value example_value_inj)
      by apply lookup_insert_eq.
    reflexivity. }
  eexists. split; [exact Hsave|]. split; [exact E|].
  destruct (Hload _ _ E) as (H1 & H2 & H3 & _).
  repeat split; assumption.
Defined.

(** ** Saving a segmentation and loading it again *)

(** X21: a segmentation whose keys fit 4-byte integers, whose labels form
    a dictionary (no key twice) and whose colours all have four channels,
    integers from 0 to 255, saved with [save_segmentation] and loaded with
    [load_segmentation], comes back with its name, its keys (as an array
    of 4-byte integers) and its labels: every key with the name and the
    colour of its label, each channel exactly. *)
Theorem save_load_rgba_segmentation_round_trip (filename : string)
    (s : Segmentation.t) (primary secondary type : string) (w : world)
    (narrow : bool) (shape : list nat) (zs : list Z) :
  Segmentation.keys s = int_array narrow shape zs ->
  Forall in_int32 zs ->
  NoDup (Segmentation.labels s).*1 ->
  Forall (fun kl => rgba_in_range kl.2) (Segmentation.labels s) ->
  exists (s' : Segmentation.t) (w' : world),
    (let! _ := save_segmentation filename s primary secondary type in
     load_segmentation filename) w = (Return s', w') /\
    Segmentation.name s' = Segmentation.name s /\
    Segmentation.keys s' = int_array true shape zs /\
    Segmentation.labels s' = Segmentation.labels s.
Proof.
  intros Hkeys Hzs Hnd Hcol. eexists. eexists. split.
  - erewrite bind_Return by apply save_segmentation_run.
    erewrite load_saved_segmentation by apply lookup_insert_eq.
    unfold labels_rgba. rewrite rgba_in_range_is_rgba by assumption.
    reflexivity.
  - unfold reloaded_segmentation.
    rewrite add_reloaded_labels_labels by assumption.
    simpl. rewrite Hkeys. now rewrite astype_i4_in_range.
Qed.

Lemma save_load_rgba_segmentation_round_trip_witness :
  exists (s' : Segmentation.t) (w' : world),
    (let! _ := save_segmentation "lobes.label.gii" lobes
                 default_primary default_secondary default_geometric_type in
     load_segmentation "lobes.label.gii") no_files = (Return s', w') /\
    Segmentation.name s' = Segmentation.name lobes /\
    Segmentation.keys s' = int_array true [3%nat] [1; 1; 2] /\
    Segmentation.labels s' = Segmentation.labels lobes.
Proof.
  apply (save_load_rgba_segmentation_round_trip "lobes.label.gii" lobes
           default_primary default_secondary default_geometric_type
           no_files false [3%nat] [1; 1; 2]).
  - reflexivity.
  - repeat constructor; unfold in_int32; simpl; lia.
  - simpl. apply NoDup_cons. split.
    + intros H. apply list_elem_of_singleton in H. discriminate H.
    + apply NoDup_singleton.
  - repeat constructor; unfold rgba_in_range; simpl; lia.
Defined.

(** X23: the entry that [add_segmentation_to_gii] writes for a label
    whose colour has four channels, integers from 0 to 255, is decoded to
    that very colour; a channel from 0 to 255 divided by 255, multiplied
    by 255 and rounded is itself again, hence within 1 of itself.  For a
    colour of three channels the entry has no alpha channel and decoding
    it raises [TypeError], whatever the values of the channels. *)
Theorem label_color_round_trip_by_channels :
  (forall (key : Z) (name : string) (r g b a : Z),
     0 <= r <= 255 -> 0 <= g <= 255 -> 0 <= b <= 255 -> 0 <= a <= 255 ->
     decode_rgba (label_entry (key, Label.mk name (Color.RGBA r g b a)))
     = Return (Color.RGBA r g b a)) /\
  (forall (key : Z) (name : string) (r g b : Z),
     decode_rgba (label_entry (key, Label.mk name (Color.RGB r g b)))
     = Raise none_times_int) /\
  (forall c : Z,
     0 <= c <= 255 -> Z.abs (decode_channel (encode_channel c) - c) <= 1).
Proof.
  split; [|split].
  - intros key name r g b a Hr Hg Hb Ha.
    unfold label_entry, decode_rgba. cbn -[encode_channel decode_channel].
    now rewrite !decode_encode_channel by assumption.
  - reflexivity.
  - intros c H. rewrite decode_encode_channel by assumption. lia.
Qed.

Lemma label_color_round_trip_by_channels_witness :
  decode_rgba
    (label_entry (1, Label.mk "frontal" (Color.RGBA 255 128 0 255)))
  = Return (Color.RGBA 255 128 0 255).
Proof.
  apply (proj1 label_color_round_trip_by_channels); lia.
Defined.

(** ** Reading one kind of file as another *)

Lemma add_reloaded_labels_name_keys (ls : list (Z * Label.t))
    (s : Segmentation.t) :
  Segmentation.name (add_reloaded_labels ls s) = Segmentation.name s /\
  Segmentation.keys (add_reloaded_labels ls s) = Segmentation.keys s.
Proof.
  revert s. induction ls as [|kl ls IH]; intros s; [split; reflexivity|].
  simpl. destruct (IH (Segmentation.add_label kl.1 (reloaded_label kl.2) s))
    as [H1 H2].
  unfold add_reloaded_labels in *. rewrite H1, H2. split; reflexivity.
Qed.

Section Mixing.

Variable value : CoordinateSystem -> Z.

(** X12: a file written by [save_segmentation] or by [save_vertex_data]
    holds no point set array: [load] raises the [ValueError] about missing
    vertex data on it. *)
Theorem load_of_a_file_without_mesh (filename : string)
    (segmentation : Segmentation.t) (vertex_data : VertexData.t)
    (primary secondary type : string) (w : world) :
  (exists w',
     (let! _ := save_segmentation filename segmentation
                  primary secondary type in
      load value filename) w = (Raise (no_vertex_data filename), w')) /\
  (exists w',
     (let! _ := save_vertex_data filename vertex_data in
      load value filename) w = (Raise (no_vertex_data filename), w')).
Proof.
  split; eexists.
  - erewrite bind_Return by apply save_segmentation_run.
    apply load_no_pointset
      with (gii := stored_image
                     (segmentation_image segmentation primary secondary type)).
    + apply lookup_insert_eq.
    + reflexivity.
  - erewrite bind_Return by apply save_vertex_data_run.
    apply load_no_pointset
      with (gii := stored_image (vertex_data_image vertex_data)).
    + apply lookup_insert_eq.
    + reflexivity.
Qed.

(** X13: [load_segmentation] on a file written by [save] for a mesh.
    When the mesh has no segmentation it raises the [ValueError] about
    missing segmentation data.  Otherwise, when every label of the first
    segmentation has a colour of four channels, it returns that
    segmentation, under its name and with its keys as 4-byte integers; and
    when some label has a colour of three channels it raises [TypeError],
    because the entry of the label table has no alpha channel. *)
Theorem load_segmentation_of_a_mesh_file (filename : string) (m : Mesh.t)
    (primary secondary type : string) (w : world) :
  exists w',
    match Mesh.segmentations m with
    | [] =>
        (let! _ := save value filename m primary secondary type in
         load_segmentation filename) w
        = (Raise (ValueError
                    (format "The file "
                       " does not contain any segmentation data." filename)),
           w')
    | s :: _ =>
        if forallb (fun kl => is_rgba kl.2) (Segmentation.labels s)
        then
          exists s',
            (let! _ := save value filename m primary secondary type in
             load_segmentation filename) w = (Return s', w') /\
            Segmentation.name s' = Segmentation.name s /\
            Segmentation.keys s' = astype_i4 (Segmentation.keys s)
        else
          (let! _ := save value filename m primary secondary type in
           load_segmentation filename) w
          = (Raise (TypeError
                      "unsupported operand type(s) for *: 'NoneType' and 'int'"),
             w')
    end.
Proof.
  assert (E : (let! _ := save value filename m primary secondary type in
               load_segmentation filename) w
              = (match Mesh.segmentations m with
                 | [] =>
                     Raise (ValueError
                              (format "The file "
                                 " does not contain any segmentation data."
                                 filename))
                 | s :: _ =>
                     if labels_rgba s then Return (reloaded_segmentation s)
                     else Raise none_times_int
                 end,
                 World (<[filename :=
                            stored_image
                              (mesh_image value m primary secondary type)]>
                          (files w))
                       (warnings w ++ save_warnings m))).
  { erewrite bind_Return by apply save_run.
    unfold load_segmentation.
    erewrite bind_Return
      by (unfold nib_load; simpl; rewrite lookup_insert_eq; reflexivity).
    unfold bind. rewrite segmentation_of_saved.
    destruct (Mesh.segmentations m) as [|s segs]; [reflexivity|].
    destruct (labels_rgba s); reflexivity. }
  eexists. rewrite E.
  destruct (Mesh.segmentations m) as [|s segs]; [reflexivity|].
  unfold labels_rgba.
  destruct (forallb (fun kl => is_rgba kl.2) (Segmentation.labels s));
    [|reflexivity].
  eexists. split; [reflexivity|].
  unfold reloaded_segmentation.
  apply (add_reloaded_labels_name_keys (Segmentation.labels s)
           (Segmentation.init (Segmentation.name s)
              (astype_i4 (Segmentation.keys s)))).
Qed.

(** X14: [load_vertex_data] on a file written by [save] for a mesh
    returns the first per vertex data of the mesh, under its name and
    narrowed to 4-byte floats, and raises the [ValueError] about missing
    vertex data when the mesh has none. *)
Theorem load_vertex_data_of_a_mesh_file (filename : string) (m : Mesh.t)
    (primary secondary type : string) (w : world) :
  exists w',
    (let! _ := save value filename m primary secondary type in
     load_vertex_data filename) w
    = (match Mesh.vertex_data m with
       | [] => Raise (no_vertex_data filename)
       | v :: _ =>
           Return (VertexData.mk (VertexData.name v)
                     (astype_f4 (VertexData.data v)))
       end, w').
Proof.
  erewrite bind_Return by apply save_run.
  unfold load_vertex_data.
  erewrite bind_Return
    by (unfold nib_load; simpl; rewrite lookup_insert_eq; reflexivity).
  erewrite bind_Return by apply vertex_data_of_saved.
  destruct (Mesh.vertex_data m) as [|v [|v' vs]]; eexists; reflexivity.
Qed.

End Mixing.

(** ** Loading a container that has several arrays of an intent *)

Lemma attached_geometry (m : Mesh.t) (t : option AffineTransform.t)
    (s : option Segmentation.t) (vs : list VertexData.t) :
  let m' :=
    foldl (fun mesh vertex_data => Mesh.add_vertex_data vertex_data mesh)
      match s with
      | Some segmentation =>
          Mesh.add_segmentation segmentation
            match t with
            | Some transform => Mesh.add_transform transform m
            | None => m
            end
      | None =>
          match t with
          | Some transform => Mesh.add_transform transform m
          | None => m
          end
      end vs in
  Mesh.vertices m' = Mesh.vertices m /\
  Mesh.triangles m' = Mesh.triangles m /\
  Mesh.normals m' = Mesh.normals m.
Proof.
  cbv zeta. rewrite foldl_add_vertex_data_mesh. now destruct s, t.
Qed.

Section FirstArrays.

Variable value : CoordinateSystem -> Z.

(** X15: a mesh that [load] returns has the data of the first point set
    array as vertices, the data of the first triangle array as triangles
    and the data of the first vector array, if any, as normals, whatever
    arrays of these intents follow in the container. *)
Theorem load_uses_first_arrays (filename : string) (gii : GiftiImage.t)
    (w w' : world) (m : Mesh.t)
    (vertex_array triangle_array : GiftiDataArray.t)
    (more_vertex_arrays more_triangle_arrays : list GiftiDataArray.t) :
  files w !! filename = Some gii ->
  GiftiImage.get_arrays_from_intent NIFTI_INTENT_POINTSET gii
  = vertex_array :: more_vertex_arrays ->
  GiftiImage.get_arrays_from_intent NIFTI_INTENT_TRIANGLE gii
  = triangle_array :: more_triangle_arrays ->
  load value filename w = (Return m, w') ->
  Mesh.vertices m = GiftiDataArray.data vertex_array /\
  Mesh.triangles m = GiftiDataArray.data triangle_array /\
  Mesh.normals m
  = GiftiDataArray.data
      <$> head (GiftiImage.get_arrays_from_intent NIFTI_INTENT_VECTOR gii).
Proof.
  intros Hfile Hps Htr. unfold load.
  erewrite bind_Return by (unfold nib_load; rewrite Hfile; reflexivity).
  cbv zeta. rewrite Hps, Htr. intros H.
  apply bind_inv in H as (va0 & w1 & H1 & H).
  assert (va0 = vertex_array) as ->.
  { destruct more_vertex_arrays; unfold bind, warn, ret in H1;
      simpl in H1; congruence. }
  apply bind_inv in H as (cs & w2 & _ & H).
  apply bind_inv in H as (ta0 & w3 & H3 & H).
  assert (ta0 = triangle_array) as ->.
  { destruct more_triangle_arrays; unfold bind, warn, ret in H3;
      simpl in H3; congruence. }
  apply bind_inv in H as (ns & w4 & H4 & H).
  assert (ns = GiftiDataArray.data
                 <$> head (GiftiImage.get_arrays_from_intent
                             NIFTI_INTENT_VECTOR gii)) as ->.
  { destruct (GiftiImage.get_arrays_from_intent NIFTI_INTENT_VECTOR gii)
      as [|na [|na' nas]]; unfold bind, warn, ret in H4;
      simpl in H4; simpl; congruence. }
  apply bind_inv in H as (t & w5 & _ & H).
  apply bind_inv in H as (sg & w6 & _ & H).
  apply bind_inv in H as (vs & w7 & _ & H).
  unfold ret in H. injection H as <- _.
  pose proof (attached_geometry
                (Mesh.init (GiftiDataArray.data vertex_array)
                   (GiftiDataArray.data triangle_array) cs
                   (GiftiDataArray.data
                      <$> head (GiftiImage.get_arrays_from_intent
                                  NIFTI_INTENT_VECTOR gii)))
                t sg vs) as G.
  exact G.
Qed.

(** X16: when the first point set array has a ['cs'] key holding the
    value of a member of the enumeration, a mesh that [load] returns has
    that member as coordinate system, whatever the embedded code. *)
Theorem cs_key_takes_precedence (filename : string) (gii : GiftiImage.t)
    (w w' : world) (m : Mesh.t) (vertex_array : GiftiDataArray.t)
    (others : list GiftiDataArray.t) (c : CoordinateSystem) :
  (forall a b, value a = value b -> a = b) ->
  files w !! filename = Some gii ->
  GiftiImage.get_arrays_from_intent NIFTI_INTENT_POINTSET gii
  = vertex_array :: others ->
  metadata (GiftiDataArray.meta vertex_array) !! "cs" = Some (str (value c)) ->
  load value filename w = (Return m, w') ->
  Mesh.coordinate_system m = c.
Proof.
  intros Hinj Hfile Hps Hcs Hload.
  pose proof (load_coordinate_system value _ _ _ _ _ _ _ Hfile Hps Hload)
    as E.
  unfold coordinate_system_of in E. rewrite Hcs, int_str in E. simpl in E.
  rewrite (CoordinateSystem_of_value_value value Hinj) in E.
  now injection E.
Qed.


End FirstArrays.

(** A container with two point set arrays and two triangle arrays; the
    first point set array says LPS in its ['cs'] key and SCANNER in its
    embedded code. *)
Definition lps_points : GiftiDataArray.t :=
  GiftiDataArray.init
    (float_array true [3%nat; 3%nat]
       (map float32_of_int [0; 0; 0; 1; 0; 0; 0; 1; 0]))
    NIFTI_INTENT_POINTSET NIFTI_TYPE_FLOAT32 [("cs", "3")]
    (Some (GiftiCoordSystem.mk 1 1 GiftiCoordSystem.identity)).

Definition two_surfaces : GiftiImage.t :=
  GiftiImage.mk [lps_points; one_triangle; aligned_points; one_triangle]
    [] [].

Lemma load_uses_first_arrays_witness :
  match load example_value "two.surf.gii"
          (World {["two.surf.gii" := two_surfaces]} []) with
  | (Return m, _) =>
      Mesh.vertices m = GiftiDataArray.data lps_points /\
      Mesh.triangles m = GiftiDataArray.data one_triangle /\
      Mesh.normals m = None
  | (Raise _, _) => False
  end.
Proof.
  destruct (load example_value "two.surf.gii"
              (World {["two.surf.gii" := two_surfaces]} []))
    as [[m|e] w'] eqn:E.
  - apply (load_uses_first_arrays example_value "two.surf.gii" two_surfaces
             (World {["two.surf.gii" := two_surfaces]} []) w' m
             lps_points one_triangle [aligned_points] [one_triangle]);
      [vm_compute; reflexivity | reflexivity | reflexivity | exact E].
  - vm_compute in E. discriminate E.
Defined.

Lemma cs_key_takes_precedence_witness :
  match load example_value "two.surf.gii"
          (World {["two.surf.gii" := two_surfaces]} []) with
  | (Return m, _) => Mesh.coordinate_system m = LPS
  | (Raise _, _) => False
  end.
Proof.
  destruct (load example_value "two.surf.gii"
              (World {["two.surf.gii" := two_surfaces]} []))
    as [[m|e] w'] eqn:E.
  - apply (cs_key_takes_precedence example_value "two.surf.gii" two_surfaces
             (World {["two.surf.gii" := two_surfaces]} []) w' m
             lps_points [aligned_points] LPS);
      [exact example_value_inj | vm_compute; reflexivity
      | reflexivity | reflexivity | exact E].
  - vm_compute in E. discriminate E.
Defined.




(** ** More on loading a mesh *)

Section LoadingMore.

Variable value : CoordinateSystem -> Z.

(** X18: when the container has more than one point set array, [load]
    issues the [RuntimeWarning] about it first, whether it then returns a
    mesh or raises. *)
Theorem load_warns_of_several_vertex_arrays (filename : string)
    (gii : GiftiImage.t) (w : world)
    (first second : GiftiDataArray.t) (others : list GiftiDataArray.t) :
  files w !! filename = Some gii ->
  GiftiImage.get_arrays_from_intent NIFTI_INTENT_POINTSET gii
  = first :: second :: others ->
  exists issued,
    warnings (load value filename w).2
    = warnings w ++
      Warning RuntimeWarning
        (format "The file "
           (" contains more than one vertex array. The " +:+
            "first one was used. Proceed with caution.")
           filename)
      :: issued.
Proof.
  intros Hfile Hps. unfold load.
  erewrite bind_Return by (unfold nib_load; rewrite Hfile; reflexivity).
  cbv zeta. rewrite Hps.
  erewrite bind_Return by (erewrite bind_Return by reflexivity; reflexivity).
  match goal with
  | |- exists issued, warnings (?k ?w1).2 = _ =>
      assert (R : read_only k)
        by (repeat first [ apply read_only_create_segmentation
                         | apply read_only_get_vertex_data
                         | read_only_step ]);
      destruct (R w1) as [_ [ws Hws]]; exists ws; rewrite Hws
  end.
  simpl. now rewrite <- app_assoc.
Qed.

(** X19: what [load] attaches to the mesh it returns: the transform the
    decision function gives for the first point set array, if any; one
    per vertex data for each estimate array that has a name, under that
    name and in order; at most one segmentation. *)
Theorem load_attachments (filename : string) (gii : GiftiImage.t)
    (w w' : world) (m : Mesh.t) (vertex_array : GiftiDataArray.t)
    (others : list GiftiDataArray.t) :
  files w !! filename = Some gii ->
  GiftiImage.get_arrays_from_intent NIFTI_INTENT_POINTSET gii
  = vertex_array :: others ->
  load value filename w = (Return m, w') ->
  (exists t,
     _get_transform_from_vertex_array value vertex_array = Return t /\
     Mesh.transforms m = match t with
                         | Some transform => [transform]
                         | None => []
                         end) /\
  Mesh.vertex_data m
  = omap named_vertex_data
      (GiftiImage.get_arrays_from_intent NIFTI_INTENT_ESTIMATE gii) /\
  (length (Mesh.segmentations m) <= 1)%nat.
Proof.
  intros Hfile Hps. unfold load.
  erewrite bind_Return by (unfold nib_load; rewrite Hfile; reflexivity).
  cbv zeta. rewrite Hps. intros H.
  apply bind_inv in H as (va0 & w1 & H1 & H).
  assert (va0 = vertex_array) as ->.
  { destruct others; unfold bind, warn, ret in H1; simpl in H1; congruence. }
  apply bind_inv in H as (cs & w2 & _ & H).
  apply bind_inv in H as (ta & w3 & _ & H).
  apply bind_inv in H as (ns & w4 & _ & H).
  apply bind_inv in H as (t & w5 & H5 & H).
  apply bind_inv in H as (sg & w6 & _ & H).
  apply bind_inv in H as (vs & w7 & H7 & H).
  unfold ret in H. injection H as <- _.
  rewrite _get_vertex_data_from_gii_run in H7. injection H7 as <- _.
  unfold lift in H5. injection H5 as H5 _.
  rewrite foldl_add_vertex_data_mesh.
  split; [|split].
  - exists t. split; [exact H5|]. now destruct sg, t.
  - now destruct sg, t.
  - destruct sg, t; simpl; lia.
Qed.

(** X20: the three workbench tags are in the metadata of the point set
    array of a file written by [save], and in the metadata of the file
    itself for a file written by [save_segmentation], each under its key
    with the text given. *)
Theorem workbench_tags (filename : string) (m : Mesh.t)
    (s : Segmentation.t) (primary secondary type : string) (w : world) :
  (exists gii w' vertex_array,
     save value filename m primary secondary type w = (Return tt, w') /\
     files w' !! filename = Some gii /\
     GiftiImage.get_arrays_from_intent NIFTI_INTENT_POINTSET gii
     = [vertex_array] /\
     let md := metadata (GiftiDataArray.meta vertex_array) in
     md !! "AnatomicalStructurePrimary" = Some primary /\
     md !! "AnatomicalStructureSecondary" = Some secondary /\
     md !! "GeometricType" = Some type) /\
  (exists gii w',
     save_segmentation filename s primary secondary type w = (Return tt, w') /\
     files w' !! filename = Some gii /\
     let md := metadata (GiftiImage.meta gii) in
     md !! "AnatomicalStructurePrimary" = Some primary /\
     md !! "AnatomicalStructureSecondary" = Some secondary /\
     md !! "GeometricType" = Some type).
Proof.
  split.
  - eexists. eexists. eexists.
    split; [apply save_run|]. simpl.
    split; [apply lookup_insert_eq|].
    split.
    { rewrite get_arrays_stored_image, get_pointset_arrays. reflexivity. }
    simpl. unfold pointset_meta, metadata.
    destruct (Mesh.transforms m); simpl;
      (split; [|split]);
      repeat (rewrite lookup_insert_ne by done);
      apply lookup_insert_eq.
  - eexists. eexists.
    split; [apply save_segmentation_run|]. simpl.
    split; [apply lookup_insert_eq|].
    simpl. unfold metadata. simpl.
    (split; [|split]);
      repeat (rewrite lookup_insert_ne by done);
      apply lookup_insert_eq.
Qed.

End LoadingMore.

Lemma load_warns_of_several_vertex_arrays_witness :
  exists issued,
    warnings (load example_value "two.surf.gii"
                (World {["two.surf.gii" := two_surfaces]} [])).2
    = [] ++
      Warning RuntimeWarning
        (format "The file "
           (" contains more than one vertex array. The " +:+
            "first one was used. Proceed with caution.")
           "two.surf.gii")
      :: issued.
Proof.
  apply (load_warns_of_several_vertex_arrays example_value "two.surf.gii"
           two_surfaces (World {["two.surf.gii" := two_surfaces]} [])
           lps_points aligned_points []);
    [vm_compute; reflexivity | reflexivity].
Defined.

Lemma load_attachments_witness :
  match load example_value "two.surf.gii"
          (World {["two.surf.gii" := two_surfaces]} []) with
  | (Return m, _) =>
      (exists t,
         _get_transform_from_vertex_array example_value lps_points
         = Return t /\
         Mesh.transforms m = match t with
                             | Some transform => [transform]
                             | None => []
                             end) /\
      Mesh.vertex_data m
      = omap named_vertex_data
          (GiftiImage.get_arrays_from_intent NIFTI_INTENT_ESTIMATE
             two_surfaces) /\
      (length (Mesh.segmentations m) <= 1)%nat
  | (Raise _, _) => False
  end.
Proof.
  destruct (load example_value "two.surf.gii"
              (World {["two.surf.gii" := two_surfaces]} []))
    as [[m|e] w'] eqn:E.
  - apply (load_attachments example_value "two.surf.gii" two_surfaces
             (World {["two.surf.gii" := two_surfaces]} []) w' m
             lps_points [aligned_points]);
      [vm_compute; reflexivity | reflexivity | exact E].
  - vm_compute in E. discriminate E.
Defined.
